(** * ExpenseTrackerBackend: the expense routes, embedded and verified

    A shallow embedding of [routes/userRoute.js] (totals, CRUD handlers,
    time-window filter, text search, register and login) together with the
    properties its specification states about them.

    Conventions of the embedding:
    - a MongoDB collection is a [list] of documents in natural (insertion)
      order; every handler is a function from the collections to a
      response and the collections afterwards;
    - the handlers of the protected routes are taken after [authMiddleware]
      has attached the user of the bearer token as [req.user];
    - JavaScript numbers that are amounts and totals are IEEE 754 doubles:
      the binary64 [float] of the prover, with its [nan], its two zeros and
      its rounding; time values are integer counts of milliseconds, which
      doubles hold exactly, and are kept in [Z];
    - strings are [string]s of code units below 256, with the white space
      and the letter case these have;
    - local time is taken with a zero offset from UTC and no daylight
      saving, so a time value is a count of milliseconds on one linear
      civil time line: where the server runs in another zone, or across a
      change of its offset, the days, months and years below are those of
      this line, not of the server's clock. *)

From Stdlib Require Import Floats ZArith List String Ascii Bool Lia Eqdep_dec.
Import ListNotations.

Local Open Scope Z_scope.
Local Open Scope string_scope.

(** ** JavaScript values *)

Module Js.

(** What a JSON request body can hold in one field; [object] stands for
    any array or object, which is truthy and otherwise opaque. *)
Inductive value : Type :=
| undefined
| null
| boolean (b : bool)
| number (n : float)
| str (s : string)
| object.

(** The falsy numbers: the zeros of either sign, and [NaN]. *)
Definition falsy_number (n : float) : bool :=
  PrimFloat.eqb n 0%float || PrimFloat.is_nan n.

(** ToBoolean: [undefined], [null], [false], the falsy numbers and the
    empty string are falsy. *)
Definition truthy (v : value) : bool :=
  match v with
  | undefined | null => false
  | boolean b => b
  | number n => negb (falsy_number n)
  | str s => negb (String.eqb s EmptyString)
  | object => true
  end.

(** The operand test of [!v]. *)
Definition not (v : value) : bool := negb (truthy v).

(** [x || 0] on a number: a falsy number gives [0]. *)
Definition or_zero (x : float) : float :=
  if falsy_number x then 0%float else x.

(** [!s] on a value that is a string when present. *)
Definition not_str (s : option string) : bool :=
  match s with
  | None => true
  | Some s => String.eqb s EmptyString
  end.

End Js.

(** ** Strings: whitespace, trimming, letter case *)

Module Str.

Definition code (c : ascii) : N := N_of_ascii c.

(** White space and line terminators among the code units below 256: TAB,
    LF, VT, FF, CR, SPACE and the no-break space (160). *)
Definition is_whitespace (c : ascii) : bool :=
  ((9 <=? code c) && (code c <=? 13) || (code c =? 32) || (code c =? 160))%N.

Fixpoint trimStart (s : string) : string :=
  match s with
  | EmptyString => EmptyString
  | String c s' => if is_whitespace c then trimStart s' else s
  end.

Fixpoint rev (s : string) : string :=
  match s with
  | EmptyString => EmptyString
  | String c s' => rev s' ++ String c EmptyString
  end.

Definition trimEnd (s : string) : string := rev (trimStart (rev s)).

(** [String.prototype.trim]. *)
Definition trim (s : string) : string := trimEnd (trimStart s).

(** The letters that have their other case among the code units below 256:
    a to z and A to Z, and the accented letters from 224 to 254 and from 192
    to 222, the division and multiplication signs (247, 215) apart.  The
    sharp s (223), the micro sign (181) and the y with diaeresis (255) have
    no capital below 256 and are left as they are. *)
Definition is_lower (c : ascii) : bool :=
  ((97 <=? code c) && (code c <=? 122)
   || (224 <=? code c) && (code c <=? 254) && negb (code c =? 247))%N.
Definition is_upper (c : ascii) : bool :=
  ((65 <=? code c) && (code c <=? 90)
   || (192 <=? code c) && (code c <=? 222) && negb (code c =? 215))%N.

Definition toUpperCase (c : ascii) : ascii :=
  if is_lower c then ascii_of_N (code c - 32) else c.

Definition toLowerCase (c : ascii) : ascii :=
  if is_upper c then ascii_of_N (code c + 32) else c.

Fixpoint map (f : ascii -> ascii) (s : string) : string :=
  match s with
  | EmptyString => EmptyString
  | String c s' => String (f c) (map f s')
  end.

Fixpoint forallb (p : ascii -> bool) (s : string) : bool :=
  match s with
  | EmptyString => true
  | String c s' => p c && forallb p s'
  end.

Fixpoint existsb (p : ascii -> bool) (s : string) : bool :=
  match s with
  | EmptyString => false
  | String c s' => p c || existsb p s'
  end.

(** The text before the first [sep] and the text after it. *)
Fixpoint split_first (sep : ascii) (s : string) : option (string * string) :=
  match s with
  | EmptyString => None
  | String c s' =>
      if Ascii.eqb c sep then Some (EmptyString, s')
      else match split_first sep s' with
           | Some (a, b) => Some (String c a, b)
           | None => None
           end
  end.

(** The text before the last [sep] and the text after it. *)
Fixpoint split_last (sep : ascii) (s : string) : option (string * string) :=
  match s with
  | EmptyString => None
  | String c s' =>
      match split_last sep s' with
      | Some (a, b) => Some (String c a, b)
      | None => if Ascii.eqb c sep then Some (EmptyString, s') else None
      end
  end.

(** [s.startsWith(p)]. *)
Fixpoint startsWith (p s : string) : bool :=
  match p, s with
  | EmptyString, _ => true
  | String _ _, EmptyString => false
  | String a p', String b s' => Ascii.eqb a b && startsWith p' s'
  end.

(** [s.split(sep)] for a separator of one character: the pieces between
    the occurrences of [sep], empty pieces included. *)
Fixpoint split (sep : ascii) (s : string) : list string :=
  match s with
  | EmptyString => [EmptyString]
  | String c s' =>
      if Ascii.eqb c sep then EmptyString :: split sep s'
      else match split sep s' with
           | piece :: pieces => String c piece :: pieces
           | [] => [String c EmptyString]
           end
  end.

End Str.

(** ** Documents *)

(** An ObjectId in its hexadecimal string form, as it travels in tokens:
    the ids of users, which the routes only compare. *)
Definition ObjectId : Type := string.

(** The ObjectIds of the records: 12 bytes, held in their hexadecimal form
    of 24 digits with the letters in lower case, and the cast that the
    store applies to the id of a request. *)
Module Oid.

Definition is_hex_digit (c : ascii) : bool :=
  ((48 <=? Str.code c) && (Str.code c <=? 57)
   || (97 <=? Str.code c) && (Str.code c <=? 102))%N.

Definition canonical (s : string) : bool :=
  (String.length s =? 24)%nat && Str.forallb is_hex_digit s.

Record t : Type := mk {
  hex : string;
  hex_canonical : canonical hex = true
}.

Definition eqb (a b : t) : bool := String.eqb (hex a) (hex b).

Definition of_hex (s : string) : option t :=
  match bool_dec (canonical s) true with
  | left H => Some (mk s H)
  | right _ => None
  end.

(** The cast of a string to an ObjectId: 24 hexadecimal digits, in either
    case, are the id they spell; any other string is refused, but for a
    string of 12 characters, which the older drivers read as the 12 bytes
    of an id and the newer ones refuse: [of_bytes] is what the driver at
    hand makes of it. *)
Definition cast (of_bytes : string -> option t) (s : string) : option t :=
  if (String.length s =? 12)%nat then of_bytes s
  else of_hex (Str.map Str.toLowerCase s).

End Oid.

Module Expense.

(** Modelled from the spec: the Expense schema (models/expense.js) is
    missing.  The spec's data model gives a record an id, an owner, a
    type, an amount that "is numeric and coerced to 0 if unparseable", a
    category, a calendar date and a description.  The amount is either
    numeric or unparseable; the date is kept as the time value of the
    instant [dayjs(r.date, "DD-MM-YYYY")] denotes, and is [None] when that
    is the invalid date, as for a date that is null or a text the parser
    cannot read; category and description may be absent, since creation
    does not require them.  The id is the ObjectId the store gives the
    document. *)
Inductive amount_value : Type :=
| numeric (n : float)
| unparseable.

Record t : Type := mk {
  _id : Oid.t;
  userId : ObjectId;
  type : string;
  amount : amount_value;
  category : option string;
  date : option Z;
  description : option string
}.

End Expense.

Module User.

(** Modelled from the spec: the User schema (models/user.js) is missing.
    The spec's data model gives a user an id, a name, an email and a
    hashed password. *)
Record t : Type := mk {
  _id : ObjectId;
  name : string;
  email : string;
  password : string
}.

End User.

(** The two collections of the document store. *)
Record Db : Type := mkDb {
  expenses : list Expense.t;
  users : list User.t
}.

(** ** Totals *)

Record Totals : Type := mkTotals {
  totalIncome : float;
  totalExpense : float;
  totalBalance : float
}.

(** [Number(r.amount)]: an unparseable amount coerces to [NaN]. *)
Definition Number (a : Expense.amount_value) : float :=
  match a with
  | Expense.numeric n => n
  | Expense.unparseable => nan
  end.

(** [Array.prototype.reduce] with an initial value. *)
Definition reduce {A B : Type} (f : B -> A -> B) (init : B) (l : list A) : B :=
  fold_left f l init.

Definition calculateTotals (records : list Expense.t) : Totals :=
  let totalIncome :=
    reduce (fun sum r => (sum + Js.or_zero (Number (Expense.amount r)))%float)
      0%float
      (filter (fun r => (Expense.type r =? "Income")%string) records) in
  let totalExpense :=
    reduce (fun sum r => (sum + Js.or_zero (Number (Expense.amount r)))%float)
      0%float
      (filter (fun r => (Expense.type r =? "Expense")%string) records) in
  let totalBalance := (totalIncome - totalExpense)%float in
  mkTotals totalIncome totalExpense totalBalance.

(** ** Calendar time, after ECMAScript's Date and dayjs *)

Module Dayjs.

Definition msPerDay : Z := 86400000.
Definition msPerHour : Z := 3600000.
Definition msPerMinute : Z := 60000.
Definition msPerSecond : Z := 1000.

Definition Day (t : Z) : Z := t / msPerDay.
Definition TimeWithinDay (t : Z) : Z := t mod msPerDay.

Definition isLeapYear (y : Z) : bool :=
  (y mod 4 =? 0)%Z && (negb (y mod 100 =? 0)%Z || (y mod 400 =? 0)%Z).

Definition DaysInYear (y : Z) : Z := if isLeapYear y then 366 else 365.

(** Day number of the first day of year [y]; day 0 is 1970-01-01. *)
Definition DayFromYear (y : Z) : Z :=
  365 * (y - 1970) + (y - 1969) / 4 - (y - 1901) / 100 + (y - 1601) / 400.

(** The largest year whose first day is not after day [d]: an estimate
    from the mean year length, corrected by at most one year. *)
Definition YearFromDay (d : Z) : Z :=
  let y0 := 1970 + (400 * d) / 146097 in
  if (d <? DayFromYear y0)%Z then y0 - 1
  else if (DayFromYear (y0 + 1) <=? d)%Z then y0 + 1
  else y0.

Definition YearFromTime (t : Z) : Z := YearFromDay (Day t).

Definition DayWithinYear (t : Z) : Z := Day t - DayFromYear (YearFromTime t).

(** Days of the year before month [m] (0 = January). *)
Definition daysBeforeMonth (leap : bool) (m : Z) : Z :=
  let l := if leap then 1 else 0 in
  if (m <=? 0)%Z then 0
  else if (m =? 1)%Z then 31
  else if (m =? 2)%Z then 59 + l
  else if (m =? 3)%Z then 90 + l
  else if (m =? 4)%Z then 120 + l
  else if (m =? 5)%Z then 151 + l
  else if (m =? 6)%Z then 181 + l
  else if (m =? 7)%Z then 212 + l
  else if (m =? 8)%Z then 243 + l
  else if (m =? 9)%Z then 273 + l
  else if (m =? 10)%Z then 304 + l
  else 334 + l.

Definition MonthFromDayWithinYear (leap : bool) (d : Z) : Z :=
  if (d <? daysBeforeMonth leap 1)%Z then 0
  else if (d <? daysBeforeMonth leap 2)%Z then 1
  else if (d <? daysBeforeMonth leap 3)%Z then 2
  else if (d <? daysBeforeMonth leap 4)%Z then 3
  else if (d <? daysBeforeMonth leap 5)%Z then 4
  else if (d <? daysBeforeMonth leap 6)%Z then 5
  else if (d <? daysBeforeMonth leap 7)%Z then 6
  else if (d <? daysBeforeMonth leap 8)%Z then 7
  else if (d <? daysBeforeMonth leap 9)%Z then 8
  else if (d <? daysBeforeMonth leap 10)%Z then 9
  else if (d <? daysBeforeMonth leap 11)%Z then 10
  else 11.

Definition MonthFromTime (t : Z) : Z :=
  MonthFromDayWithinYear (isLeapYear (YearFromTime t)) (DayWithinYear t).

Definition DateFromTime (t : Z) : Z :=
  DayWithinYear t
  - daysBeforeMonth (isLeapYear (YearFromTime t)) (MonthFromTime t) + 1.

Definition MakeTime (hour min sec ms : Z) : Z :=
  hour * msPerHour + min * msPerMinute + sec * msPerSecond + ms.

(** Months beyond 0..11 carry into the year; the date counts on from the
    first of the month, so date 0 is the last day of the month before. *)
Definition MakeDay (year month date : Z) : Z :=
  let ym := year + month / 12 in
  let mn := month mod 12 in
  DayFromYear ym + daysBeforeMonth (isLeapYear ym) mn + date - 1.

Definition MakeDate (day time : Z) : Z := day * msPerDay + time.

(** [new Date(y, m, d)]: local midnight; a year from 0 to 99 is read as
    1900 + y. *)
Definition Date_of (y m d : Z) : Z :=
  let yr := if (0 <=? y)%Z && (y <=? 99)%Z then 1900 + y else y in
  MakeDate (MakeDay yr m d) 0.

(** [Date.prototype.setHours(h, m, s, ms)] on the date with time value
    [t]. *)
Definition setHours (t hour min sec ms : Z) : Z :=
  MakeDate (Day t) (MakeTime hour min sec ms).

(** A dayjs object on a valid date wraps its time value. *)
Record t : Type := wrap { valueOf : Z }.

(** A dayjs object on any date: a valid one, or the invalid date, whose
    time value is NaN. *)
Inductive parsed : Type :=
| valid (x : t)
| invalid.

(** [dayjs(date, format)] on a stored date: the customParseFormat plugin is
    not loaded, so the format is not used. *)
Definition dayjs (date : option Z) (format : string) : parsed :=
  match date with
  | Some v => valid (wrap v)
  | None => invalid
  end.

Definition y (x : t) : Z := YearFromTime (valueOf x).
Definition M (x : t) : Z := MonthFromTime (valueOf x).
Definition D (x : t) : Z := DateFromTime (valueOf x).

Inductive unit : Type := day | month | year.

Definition instanceFactorySet (isStartOf : bool) (x : t) : t :=
  if isStartOf then wrap (setHours (valueOf x) 0 0 0 0)
  else wrap (setHours (valueOf x) 23 59 59 999).

Definition instanceFactory (isStartOf : bool) (x : t) (d m : Z) : t :=
  let ins := wrap (Date_of (y x) m d) in
  if isStartOf then ins else instanceFactorySet false ins.

(** [startOf(units, startOf)]; [endOf(units)] is [startOf(units, false)]. *)
Definition startOf_ (units : unit) (isStartOf : bool) (x : t) : t :=
  match units with
  | year =>
      if isStartOf then instanceFactory isStartOf x 1 0
      else instanceFactory isStartOf x 31 11
  | month =>
      if isStartOf then instanceFactory isStartOf x 1 (M x)
      else instanceFactory isStartOf x 0 (M x + 1)
  | day => instanceFactorySet isStartOf x
  end.

Definition startOf (units : unit) (x : t) : t := startOf_ units true x.
Definition endOf (units : unit) (x : t) : t := startOf_ units false x.

(** [isAfter(that)] and [isBefore(that)] without a unit compare the time
    values; a comparison with NaN is false. *)
Definition isAfter (x : parsed) (that : t) : bool :=
  match x with
  | valid x => (valueOf that <? valueOf x)%Z
  | invalid => false
  end.
Definition isBefore (x : parsed) (that : t) : bool :=
  match x with
  | valid x => (valueOf x <? valueOf that)%Z
  | invalid => false
  end.

(** The isBetween plugin: [x.isBetween(a, b, null, i)]; [i] gives the
    inclusivity of the two ends, ["("] or [")"] excluding one. *)
Definition isBetween (x : parsed) (a b : t) (i : string) : bool :=
  let dAi := match get 0 i with Some c => Ascii.eqb c "(" | None => false end in
  let dBi := match get 1 i with Some c => Ascii.eqb c ")" | None => false end in
  ((if dAi then isAfter x a else negb (isBefore x a))
   && (if dBi then isBefore x b else negb (isAfter x b)))
  || ((if dAi then isBefore x a else negb (isAfter x a))
      && (if dBi then isAfter x b else negb (isBefore x b))).

End Dayjs.

(** ** Regular expressions: the fragment of literal characters and dots *)

Module RegExp.

(** SyntaxCharacter: one of [^ $ \ . * + ? ( ) [ ] { } |]. *)
Definition is_syntax_character (c : ascii) : bool :=
  Str.existsb (Ascii.eqb c) "^$\.*+?()[]{}|".

Definition is_line_terminator (c : ascii) : bool :=
  ((Str.code c =? 10) || (Str.code c =? 13))%N.

Inductive atom : Type :=
| PatternCharacter (c : ascii)
| Dot.

(** A pattern of the fragment is a sequence of atoms; a source text that
    uses any other syntax character has no reading here. *)
Fixpoint parse (source : string) : option (list atom) :=
  match source with
  | EmptyString => Some []
  | String c rest =>
      if Ascii.eqb c "." then option_map (cons Dot) (parse rest)
      else if is_syntax_character c then None
      else option_map (cons (PatternCharacter c)) (parse rest)
  end.

Record t : Type := mk {
  atoms : list atom;
  ignoreCase : bool
}.

(** The atoms of a source text read character by character. *)
Fixpoint literal (q : string) : list atom :=
  match q with
  | EmptyString => []
  | String c q' => PatternCharacter c :: literal q'
  end.

(** [new RegExp(pattern, flags)] on the fragment. *)
Definition make (pattern flags : string) : option t :=
  match parse pattern with
  | Some a => Some (mk a (Str.existsb (Ascii.eqb "i") flags))
  | None => None
  end.

(** Canonicalize: with the [i] flag characters are compared upper-cased. *)
Definition Canonicalize (re : t) (c : ascii) : ascii :=
  if ignoreCase re then Str.toUpperCase c else c.

Definition atom_matches (re : t) (a : atom) (c : ascii) : bool :=
  match a with
  | PatternCharacter p => Ascii.eqb (Canonicalize re p) (Canonicalize re c)
  | Dot => negb (is_line_terminator c)
  end.

(** The atoms match a prefix of [s]. *)
Fixpoint match_here (re : t) (a : list atom) (s : string) : bool :=
  match a, s with
  | [], _ => true
  | _ :: _, EmptyString => false
  | x :: a', String c s' => atom_matches re x c && match_here re a' s'
  end.

Fixpoint match_from (re : t) (s : string) : bool :=
  match_here re (atoms re) s
  || match s with
     | EmptyString => false
     | String _ s' => match_from re s'
     end.

(** [re.test(s)]: an unanchored pattern matches at some index. *)
Definition test (re : t) (s : string) : bool := match_from re s.

(** The [$regex] query operator on a field that may be absent. *)
Definition field_matches (re : t) (field : option string) : bool :=
  match field with
  | Some s => test re s
  | None => false
  end.

End RegExp.

(** [/^[a-zA-Z0-9._%+-]+@[a-zA-Z0-9.-]+\.[a-zA-Z]{2,}$/]: the classes of
    the pattern exclude [@], so a match splits at the only [@]; the last
    class excludes the dot, so the rest splits at its last dot. *)
Module EmailRegex.

Definition is_letter (c : ascii) : bool := Str.is_lower c || Str.is_upper c.

Definition is_digit (c : ascii) : bool := ((48 <=? Str.code c) && (Str.code c <=? 57))%N.

Definition local_class (c : ascii) : bool :=
  is_letter c || is_digit c || Str.existsb (Ascii.eqb c) "._%+-".

Definition domain_class (c : ascii) : bool :=
  is_letter c || is_digit c || Str.existsb (Ascii.eqb c) ".-".

Definition test (s : string) : bool :=
  match Str.split_first "@" s with
  | None => false
  | Some (local, rest) =>
      match Str.split_last "." rest with
      | None => false
      | Some (domain, tld) =>
          (1 <=? length local)%nat && Str.forallb local_class local
          && (1 <=? length domain)%nat && Str.forallb domain_class domain
          && (2 <=? length tld)%nat && Str.forallb is_letter tld
      end
  end.

End EmailRegex.

(** ** Responses *)

(** The JSON bodies the handlers send, one shape per constructor. *)
Inductive Body : Type :=
| ErrorBody (error : string)
| MessageBody (message : string)
| RecordBody (record : Expense.t)
| ChangedBody (message : string) (record : Expense.t) (totals : Totals)
| AllBody (message : string) (totals : Totals) (data : list Expense.t)
| DataBody (message : string) (data : list Expense.t)
| SearchBody (message : string) (totalResults : nat) (data : list Expense.t)
| RegisteredBody (message : string) (user : User.t)
| LoginBody (message token : string) (_id : ObjectId) (name email : string).

Record Response : Type := mkResponse {
  status : Z;
  body : Body
}.

(** [res.json(b)] answers with status 200. *)
Definition json (b : Body) : Response := mkResponse 200 b.

(** The token a response carries, if any. *)
Definition token_of (r : Response) : option string :=
  match body r with
  | LoginBody _ token _ _ _ => Some token
  | _ => None
  end.

(** The records a response carries. *)
Definition data_of (r : Response) : list Expense.t :=
  match body r with
  | RecordBody record | ChangedBody _ record _ => [record]
  | AllBody _ _ data | DataBody _ data | SearchBody _ _ data => data
  | _ => []
  end.

(** ** Queries on the collections *)

(** [Expense.find({ userId })]. *)
Definition find_by_user (uid : ObjectId) (l : list Expense.t) : list Expense.t :=
  filter (fun r => String.eqb (Expense.userId r) uid) l.

(** [Expense.findById(id)], once the id is cast. *)
Definition findById (id : Oid.t) (l : list Expense.t) : option Expense.t :=
  find (fun r => Oid.eqb (Expense._id r) id) l.

(** [Expense.findByIdAndUpdate(id, update, { new: true })], once the id
    is cast: the updated document and the collection with it in place, or
    nothing. *)
Fixpoint findByIdAndUpdate (id : Oid.t) (update : Expense.t -> Expense.t)
    (l : list Expense.t) : option (Expense.t * list Expense.t) :=
  match l with
  | [] => None
  | r :: l' =>
      if Oid.eqb (Expense._id r) id then Some (update r, update r :: l')
      else match findByIdAndUpdate id update l' with
           | Some (u, l'') => Some (u, r :: l'')
           | None => None
           end
  end.

(** [Expense.findByIdAndDelete(id)], once the id is cast: the deleted
    document and the collection without it, or nothing. *)
Fixpoint findByIdAndDelete (id : Oid.t) (l : list Expense.t)
    : option (Expense.t * list Expense.t) :=
  match l with
  | [] => None
  | r :: l' =>
      if Oid.eqb (Expense._id r) id then Some (r, l')
      else match findByIdAndDelete id l' with
           | Some (d, l'') => Some (d, r :: l'')
           | None => None
           end
  end.

(** [User.findOne({ email })]. *)
Definition findOne_email (e : string) (l : list User.t) : option User.t :=
  find (fun u => String.eqb (User.email u) e) l.

(** [User.findById(id)]; an id that is [undefined] finds nobody. *)
Definition User_findById (id : option ObjectId) (l : list User.t) : option User.t :=
  match id with
  | Some i => find (fun u => String.eqb (User._id u) i) l
  | None => None
  end.

(** ** Request bodies *)

Record CreateBody : Type := mkCreateBody {
  c_type : Js.value;
  c_amount : Js.value;
  c_category : Js.value;
  c_date : Js.value;
  c_description : Js.value
}.

(** Modelled from the spec: how the missing Expense schema casts an update
    document is not in the source; the spec has update "replace fields by
    id".  A field that is present replaces the stored one; the date of
    the update is what dayjs will make of the stored value, [None] when it
    is null or unreadable: the handler checks no date. *)
Record UpdateBody : Type := mkUpdateBody {
  u_type : option string;
  u_amount : option Expense.amount_value;
  u_category : option string;
  u_date : option (option Z);
  u_description : option string
}.

Definition apply_update (b : UpdateBody) (r : Expense.t) : Expense.t :=
  Expense.mk (Expense._id r) (Expense.userId r)
    (match u_type b with Some v => v | None => Expense.type r end)
    (match u_amount b with Some v => v | None => Expense.amount r end)
    (match u_category b with Some v => Some v | None => Expense.category r end)
    (match u_date b with Some v => v | None => Expense.date r end)
    (match u_description b with Some v => Some v | None => Expense.description r end).

Definition dquote : string := String (ascii_of_nat 34) EmptyString.

(** ** The expense routes *)

Section ExpenseRoutes.

(** [dayjs(date).isValid()] on a value of the request body. *)
Variable dayjs_isValid : Js.value -> bool.

(** [Expense.create] belongs to the missing schema (casts, validation, id
    assignment) and is a parameter here: it either throws, with a message,
    or yields the document it stores for the given owner. *)
Variable Expense_create :
  CreateBody -> ObjectId -> list Expense.t -> string + Expense.t.

(** What the ObjectId cast of the store makes of a string of 12
    characters, and the message of the CastError it throws on the id it
    refuses: both belong to the store's driver. *)
Variable ObjectId_of_bytes : string -> option Oid.t.
Variable CastError_message : string -> string.

Definition with_expenses (db : Db) (l : list Expense.t) : Db :=
  mkDb l (users db).

(** The cast of [req.params.id] that the three queries by id begin with. *)
Definition castObjectId (id : string) : option Oid.t :=
  Oid.cast ObjectId_of_bytes id.

(** The answer of a handler whose query threw the CastError: its [catch]
    sends the message with status 500. *)
Definition cast_failed (id : string) (db : Db) : Response * Db :=
  (mkResponse 500 (ErrorBody (CastError_message id)), db).

(** POST /create-expense *)
Definition create_expense (req_body : CreateBody) (req_user : User.t) (db : Db)
    : Response * Db :=
  if Js.not (c_type req_body) || Js.not (c_amount req_body)
     || Js.not (c_date req_body)
  then (mkResponse 400 (ErrorBody "Type, amount, and date are required."), db)
  else if negb (dayjs_isValid (c_date req_body))
  then (mkResponse 400 (ErrorBody "Invalid date format."), db)
  else
    match Expense_create req_body (User._id req_user) (expenses db) with
    | inl message => (mkResponse 500 (ErrorBody message), db)
    | inr newRecord =>
        let db' := with_expenses db (expenses db ++ [newRecord]) in
        let allRecords := find_by_user (User._id req_user) (expenses db') in
        let totals := calculateTotals allRecords in
        (mkResponse 201
           (ChangedBody "Expense added successfully" newRecord totals), db')
    end.

(** GET /all-expenses *)
Definition all_expenses (req_user : User.t) (db : Db) : Response * Db :=
  let records := find_by_user (User._id req_user) (expenses db) in
  let totals := calculateTotals records in
  (json (AllBody "All expenses fetched successfully" totals records), db).

(** GET /expense/:id *)
Definition get_expense (id : string) (req_user : User.t) (db : Db)
    : Response * Db :=
  match castObjectId id with
  | None => cast_failed id db
  | Some oid =>
      match findById oid (expenses db) with
      | None => (mkResponse 404 (ErrorBody "Record not found"), db)
      | Some record => (json (RecordBody record), db)
      end
  end.

(** PUT /expense/:id *)
Definition update_expense (id : string) (req_body : UpdateBody)
    (req_user : User.t) (db : Db) : Response * Db :=
  match castObjectId id with
  | None => cast_failed id db
  | Some oid =>
      match findByIdAndUpdate oid (apply_update req_body) (expenses db) with
      | None => (mkResponse 404 (ErrorBody "Record not found"), db)
      | Some (updatedRecord, stored) =>
          let db' := with_expenses db stored in
          let allRecords := expenses db' in
          let totals := calculateTotals allRecords in
          (json (ChangedBody "Expense updated successfully" updatedRecord
                   totals), db')
      end
  end.

(** DELETE /expense/:id *)
Definition delete_expense (id : string) (req_user : User.t) (db : Db)
    : Response * Db :=
  match castObjectId id with
  | None => cast_failed id db
  | Some oid =>
      match findByIdAndDelete oid (expenses db) with
      | None => (mkResponse 404 (ErrorBody "Record not found"), db)
      | Some (deletedRecord, stored) =>
          let db' := with_expenses db stored in
          let allRecords := expenses db' in
          let totals := calculateTotals allRecords in
          (json (ChangedBody "Expense deleted successfully" deletedRecord
                   totals), db')
      end
  end.

Definition validFilters : list string := ["today"; "month"; "year"].

(** [validFilters.includes(filter)] on a query parameter that is a string
    when present. *)
Definition includes (l : list string) (x : option string) : bool :=
  match x with
  | Some s => existsb (String.eqb s) l
  | None => false
  end.

(** [filter === s]. *)
Definition strict_eq (x : option string) (s : string) : bool :=
  match x with
  | Some v => String.eqb v s
  | None => false
  end.

(** The template literal [`${x}`] on a query parameter. *)
Definition template (x : option string) : string :=
  match x with
  | Some v => v
  | None => "undefined"
  end.

(** The pair [startDate], [endDate] the handler computes. *)
Definition window (filter : option string) (now : Dayjs.t) : Dayjs.t * Dayjs.t :=
  if strict_eq filter "today"
  then (Dayjs.startOf Dayjs.day now, Dayjs.endOf Dayjs.day now)
  else if strict_eq filter "month"
  then (Dayjs.startOf Dayjs.month now, Dayjs.endOf Dayjs.month now)
  else (Dayjs.startOf Dayjs.year now, Dayjs.endOf Dayjs.year now).

(** GET /expenses-by-time; [now] is what [dayjs()] returns. *)
Definition expenses_by_time (filter : option string) (now : Dayjs.t)
    (req_user : User.t) (db : Db) : Response * Db :=
  if negb (includes validFilters filter)
  then (mkResponse 400
          (ErrorBody "Invalid filter. Use 'today', 'month', or 'year'."), db)
  else
    let (startDate, endDate) := window filter now in
    let allRecords := find_by_user (User._id req_user) (expenses db) in
    let filteredRecords :=
      List.filter (fun r =>
                     let recordDate := Dayjs.dayjs (Expense.date r) "DD-MM-YYYY" in
                     Dayjs.isBetween recordDate startDate endDate "[]")
                  allRecords in
    let totals := calculateTotals filteredRecords in
    (json (DataBody ("Expenses for " ++ template filter) filteredRecords), db).

(** The query document [{ $or: [{ category }, { description }, { type }] }],
    each field under [$regex]. *)
Definition or_regex (regex : RegExp.t) (r : Expense.t) : bool :=
  RegExp.field_matches regex (Expense.category r)
  || RegExp.field_matches regex (Expense.description r)
  || RegExp.field_matches regex (Some (Expense.type r)).

(** GET /search-expenses.  [None] marks a query whose pattern lies
    outside the fragment of [RegExp]; on it the embedding is silent. *)
Definition search_expenses (query : option string) (req_user : User.t)
    (db : Db) : option (Response * Db) :=
  match query with
  | None => Some (mkResponse 400 (ErrorBody "Query parameter is required"), db)
  | Some q =>
      if String.eqb q EmptyString || String.eqb (Str.trim q) EmptyString
      then Some (mkResponse 400 (ErrorBody "Query parameter is required"), db)
      else
        match RegExp.make q "i" with
        | None => None
        | Some regex =>
            let results := filter (or_regex regex) (expenses db) in
            Some (json (SearchBody
                          ("Search results for " ++ dquote ++ q ++ dquote)
                          (List.length results) results), db)
        end
  end.

End ExpenseRoutes.

(** ** The user routes *)

Definition JWT_SECRET : string := "manishexpensetracker".

Record RegisterBody : Type := mkRegisterBody {
  r_name : option string;
  r_email : option string;
  r_password : option string
}.

Record LoginRequest : Type := mkLoginRequest {
  l_email : option string;
  l_password : option string
}.

Section UserRoutes.

(** [bcrypt.hash(password, 10)] with the salt it draws, and
    [bcrypt.compare(password, hash)]. *)
Variable bcrypt_hash : string -> string -> string.
Variable bcrypt_compare : string -> string -> bool.

(** [jwt.sign({ userId, email }, secret, { expiresIn: "30d" })]. *)
Variable jwt_sign : ObjectId -> string -> string -> string.

Definition with_users (db : Db) (l : list User.t) : Db :=
  mkDb (expenses db) l.

Definition get (x : option string) : string :=
  match x with
  | Some v => v
  | None => EmptyString
  end.

(** POST /register; [salt] and [new_id] are what the hashing and the
    store draw for this request.  The fields of the body are texts when
    present, which [bcrypt.hash] takes, and the store accepts the document:
    the [catch] of the handler, which answers 500 when one of them throws,
    is not reached on these requests. *)
Definition register (req_body : RegisterBody) (salt : string) (new_id : ObjectId)
    (db : Db) : Response * Db :=
  if Js.not_str (r_name req_body) || Js.not_str (r_email req_body)
     || Js.not_str (r_password req_body)
  then (mkResponse 400 (MessageBody "Name, email, and password are required"), db)
  else if negb (EmailRegex.test (get (r_email req_body)))
  then (mkResponse 400 (MessageBody "Invalid email format"), db)
  else
    match findOne_email (get (r_email req_body)) (users db) with
    | Some existingUser => (mkResponse 400 (MessageBody "User already exists"), db)
    | None =>
        let hashedPassword := bcrypt_hash salt (get (r_password req_body)) in
        let user :=
          User.mk new_id (get (r_name req_body)) (get (r_email req_body))
            hashedPassword in
        (mkResponse 201 (RegisteredBody "User registered successfully" user),
         with_users db (users db ++ [user]))
    end.

(** POST /login, on a body whose fields are texts when present. *)
Definition login (req_body : LoginRequest) (db : Db) : Response * Db :=
  if Js.not_str (l_email req_body) || Js.not_str (l_password req_body)
  then (mkResponse 400 (MessageBody "Email and password are required"), db)
  else if negb (EmailRegex.test (get (l_email req_body)))
  then (mkResponse 400 (MessageBody "Invalid email format"), db)
  else
    match findOne_email (get (l_email req_body)) (users db) with
    | None => (mkResponse 404 (MessageBody "User not found"), db)
    | Some user =>
        let isMatch := bcrypt_compare (get (l_password req_body)) (User.password user) in
        if negb isMatch
        then (mkResponse 400 (MessageBody "Invalid password"), db)
        else
          let token := jwt_sign (User._id user) (User.email user) JWT_SECRET in
          (json (LoginBody "Login successful" token (User._id user)
                   (User.name user) (User.email user)), db)
    end.

End UserRoutes.

(** ** The bearer gate *)

Section Auth.

(** [jwt.verify(token, secret)]: it throws ([None]) on a token it does not
    accept, and otherwise yields the payload, of which the gate reads
    [userId], which a payload may lack. *)
Variable jwt_verify : string -> string -> option (option ObjectId).

(** [authMiddleware]: the answer it sends, or the user it attaches to the
    request before [next()]. *)
Definition authMiddleware (authorization : option string) (db : Db)
    : Response + User.t :=
  match authorization with
  | None => inl (mkResponse 401 (MessageBody "Unauthorized: No token provided"))
  | Some authHeader =>
      if String.eqb authHeader EmptyString
         || negb (Str.startsWith "Bearer " authHeader)
      then inl (mkResponse 401 (MessageBody "Unauthorized: No token provided"))
      else
        match nth_error (Str.split " " authHeader) 1 with
        | None => inl (mkResponse 401 (MessageBody "Unauthorized: Invalid token"))
        | Some token =>
            match jwt_verify token JWT_SECRET with
            | None => inl (mkResponse 401 (MessageBody "Unauthorized: Invalid token"))
            | Some decoded_userId =>
                match User_findById decoded_userId (users db) with
                | None =>
                    inl (mkResponse 401 (MessageBody "Unauthorized: User not found"))
                | Some user => inr user
                end
            end
        end
  end.

(** A route registered as [router.verb(path, authMiddleware, handler)]: the
    handler runs only on the request the gate lets through. *)
Definition protected (handler : User.t -> Db -> Response * Db)
    (authorization : option string) (db : Db) : Response * Db :=
  match authMiddleware authorization db with
  | inl response => (response, db)
  | inr req_user => handler req_user db
  end.

End Auth.

(** ** What the specification says, in its own terms *)

(** The amount a record contributes: its numeric amount, or 0 when the
    amount is not numeric, [NaN] included; a zero of either sign counts as
    0. *)
Definition amount_or_zero (r : Expense.t) : float :=
  match Expense.amount r with
  | Expense.numeric n =>
      if PrimFloat.is_nan n || PrimFloat.eqb n 0%float then 0%float else n
  | Expense.unparseable => 0%float
  end.

(** The running sum, in double arithmetic and in the order of the sequence,
    of the amounts of the records whose type is exactly [ty], from [acc]
    on. *)
Fixpoint sum_from (acc : float) (ty : string) (records : list Expense.t) : float :=
  match records with
  | [] => acc
  | r :: rest =>
      sum_from
        (if string_dec (Expense.type r) ty then (acc + amount_or_zero r)%float
         else acc)
        ty rest
  end.

(** The sum of the amounts of the records whose type is exactly [ty]: the
    running sum from 0. *)
Definition sum_of_type (ty : string) (records : list Expense.t) : float :=
  sum_from 0%float ty records.

(** Every numeric amount of the collection is at least 0. *)
Definition amounts_nonnegative (records : list Expense.t) : Prop :=
  forall r n,
    In r records -> Expense.amount r = Expense.numeric n ->
    (0 <=? n)%float = true.

(** The integer a double stands for, when it stands for one. *)
Definition exact_integer (x : float) : option Z :=
  match Prim2SF x with
  | S754_zero _ => Some 0
  | S754_finite s m e =>
      if (0 <=? e)%Z then Some (cond_Zopp s (Zpos m * 2 ^ e))
      else if (Zpos m mod 2 ^ (- e) =? 0)%Z
           then Some (cond_Zopp s (Zpos m / 2 ^ (- e)))
           else None
  | _ => None
  end.


(** The date of the record lies in the closed interval from [first] to
    [last]; a record whose date is invalid has no date that does. *)
Definition dated_within (first last : Z) (r : Expense.t) : Prop :=
  match Expense.date r with
  | Some date => first <= date <= last
  | None => False
  end.

(** Two texts are equal up to the case of their letters. *)
Definition same_ignoring_case (a b : string) : Prop :=
  Str.map Str.toLowerCase a = Str.map Str.toLowerCase b.

(** [s] contains [q] as a substring, up to the case of letters. *)
Definition contains_ignoring_case (q s : string) : Prop :=
  exists before middle after,
    s = before ++ middle ++ after /\ same_ignoring_case middle q.

Definition field_contains (q : string) (field : option string) : Prop :=
  match field with
  | Some s => contains_ignoring_case q s
  | None => False
  end.

(** The record matches the query in its category, description or type. *)
Definition record_contains (q : string) (r : Expense.t) : Prop :=
  field_contains q (Expense.category r)
  \/ field_contains q (Expense.description r)
  \/ field_contains q (Some (Expense.type r)).

(** The query uses no syntax character of regular expressions. *)
Definition plain_text (q : string) : Prop :=
  Str.existsb RegExp.is_syntax_character q = false.

(** The query has a character that is not white space. *)
Definition not_blank (q : string) : Prop :=
  Str.forallb Str.is_whitespace q = false.

(** The three period tokens. *)
Definition valid_token (filter : option string) : Prop :=
  filter = Some "today" \/ filter = Some "month" \/ filter = Some "year".

(** The user collections that registration can produce, whatever the
    expense collection holds. *)
Inductive registered (bcrypt_hash : string -> string -> string) : Db -> Prop :=
| registered_none l : registered bcrypt_hash (mkDb l [])
| registered_more db req_body salt new_id :
    registered bcrypt_hash db ->
    registered bcrypt_hash (snd (register bcrypt_hash req_body salt new_id db))
| registered_expenses db l :
    registered bcrypt_hash db ->
    registered bcrypt_hash (with_expenses db l).

(** ** Sample data *)

Module Sample.

Definition ann : User.t := User.mk "u1" "Ann" "ann@example.com" "salt$secret".
Definition bob : User.t := User.mk "u2" "Bob" "bob@example.com" "salt$hunter2".

(** A stand-in for the hashing library: enough to run the user routes. *)
Definition hash (salt password : string) : string := salt ++ "$" ++ password.
Definition compare (password hashed : string) : bool :=
  match Str.split_first "$" hashed with
  | Some (_, p) => String.eqb p password
  | None => false
  end.
Definition sign (userId : ObjectId) (email secret : string) : string :=
  userId ++ "." ++ email ++ "." ++ secret.

(** The doubles nearest to 0.1, 0.2, 0.3 and 0.6. *)
Definition tenth : float := 0x1.999999999999ap-4.
Definition fifth : float := 0x1.999999999999ap-3.
Definition three_tenths : float := 0x1.3333333333333p-2.
Definition three_fifths : float := 0x1.3333333333333p-1.

(** Nine ObjectIds. *)
Definition e1 : Oid.t := Oid.mk "65f400000000000000000001" eq_refl.
Definition e2 : Oid.t := Oid.mk "65f400000000000000000002" eq_refl.
Definition e3 : Oid.t := Oid.mk "65f400000000000000000003" eq_refl.
Definition e4 : Oid.t := Oid.mk "65f400000000000000000004" eq_refl.
Definition e6 : Oid.t := Oid.mk "65f400000000000000000006" eq_refl.
Definition e7 : Oid.t := Oid.mk "65f400000000000000000007" eq_refl.
Definition e8 : Oid.t := Oid.mk "65f400000000000000000008" eq_refl.
Definition e9 : Oid.t := Oid.mk "65f400000000000000000009" eq_refl.

(** Stand-ins for the driver: one that refuses the strings of 12
    characters, and the message of its CastError. *)
Definition of_bytes (s : string) : option Oid.t := None.
Definition message (id : string) : string :=
  "Cast to ObjectId failed for value " ++ id.

Definition expense (id : Oid.t) (owner ty : string) (n : float) (cat : string)
    (date : Z) : Expense.t :=
  Expense.mk id owner ty (Expense.numeric n) (Some cat) (Some date) None.

(** 2024-03-15T10:00 and the midnights of 2024-03-15 and 2024-03-14. *)
Definition now : Dayjs.t :=
  Dayjs.wrap (Dayjs.MakeDate (Dayjs.MakeDay 2024 2 15) (Dayjs.MakeTime 10 0 0 0)).
Definition mar15 : Z := Dayjs.Date_of 2024 2 15.
Definition mar14 : Z := Dayjs.Date_of 2024 2 14.

Definition salary : Expense.t := expense e1 "u1" "Income" 3000 "Salary" mar15.
Definition food : Expense.t := expense e2 "u1" "Expense" 120 "Groceries" mar14.
Definition rent : Expense.t := expense e3 "u2" "Expense" 900 "Rent" mar15.

Definition db : Db := mkDb [salary; food; rent] [ann; bob].


(** The store after Ann alone has registered. *)
Definition registry : Db :=
  snd (register hash (mkRegisterBody (Some "Ann") (Some "ann@example.com")
                        (Some "secret")) "salt" "u1" (mkDb [] [])).

(** Stand-ins for the date check and for the schema's [Expense.create]: a
    request with a textual type and a numeric amount is stored under the id
    [e4], any other makes the creation throw. *)
Definition isValid (v : Js.value) : bool :=
  match v with
  | Js.str s => negb (String.eqb s EmptyString)
  | _ => false
  end.

Definition create (b : CreateBody) (owner : ObjectId) (l : list Expense.t)
    : string + Expense.t :=
  match c_type b, c_amount b with
  | Js.str ty, Js.number n =>
      inr (Expense.mk e4 owner ty (Expense.numeric n) None (Some mar15) None)
  | _, _ => inl "Expense validation failed"
  end.

Definition request : CreateBody :=
  mkCreateBody (Js.str "Expense") (Js.number 40) Js.undefined
    (Js.str "2024-03-15") Js.undefined.

(** A stand-in for the verification of the tokens [sign] makes. *)
Definition verify (token secret : string) : option (option ObjectId) :=
  match Str.split_first "." token with
  | Some (userId, rest) =>
      match Str.split_last "." rest with
      | Some (_, signed) =>
          if String.eqb signed secret then Some (Some userId) else None
      | None => None
      end
  | None => None
  end.

End Sample.

(** ** Further notions for the properties of the routes *)

(** No two records of the store carry the same id. *)
Definition unique_ids (db : Db) : Prop :=
  NoDup (List.map Expense._id (expenses db)).


Definition unique_user_ids (db : Db) : Prop :=
  NoDup (List.map User._id (users db)).

(** The records an answer of the search carries. *)
Definition found (result : option (Response * Db)) : list Expense.t :=
  match result with
  | Some (response, _) => data_of response
  | None => []
  end.

(** The type of the record is one of the two the totals count. *)
Definition counted_type (r : Expense.t) : Prop :=
  Expense.type r = "Income" \/ Expense.type r = "Expense".

(** Every character of the text is white space. *)
Definition blank (q : string) : Prop :=
  Str.forallb Str.is_whitespace q = true.

(** The text has no space in it. *)
Definition no_space (s : string) : Prop :=
  Str.existsb (Ascii.eqb " ") s = false.


(** * Properties *)

(** ** Totals *)

Lemma or_zero_Number (r : Expense.t) :
  Js.or_zero (Number (Expense.amount r)) = amount_or_zero r.
Proof.
  unfold amount_or_zero, Number, Js.or_zero, Js.falsy_number.
  destruct (Expense.amount r) as [n|]; [|reflexivity].
  rewrite orb_comm. reflexivity.
Qed.

(** The reduce over the filtered list is the running sum over the list. *)
Lemma reduce_filter_sum_from (ty : string) (records : list Expense.t) (acc : float) :
  reduce (fun sum r => (sum + Js.or_zero (Number (Expense.amount r)))%float) acc
    (filter (fun r => String.eqb (Expense.type r) ty) records)
  = sum_from acc ty records.
Proof.
  unfold reduce. revert acc.
  induction records as [|r rest IH]; intros acc; simpl; [reflexivity|].
  destruct (String.eqb_spec (Expense.type r) ty) as [E|E];
    destruct (string_dec (Expense.type r) ty) as [E'|E']; try contradiction.
  - simpl. rewrite or_zero_Number. apply IH.
  - apply IH.
Qed.

Lemma reduce_filter_sum_of_type (ty : string) (records : list Expense.t) :
  reduce (fun sum r => (sum + Js.or_zero (Number (Expense.amount r)))%float)
    0%float
    (filter (fun r => String.eqb (Expense.type r) ty) records)
  = sum_of_type ty records.
Proof. apply reduce_filter_sum_from. Qed.

Lemma calculateTotals_sum_of_type records :
  calculateTotals records
  = mkTotals (sum_of_type "Income" records) (sum_of_type "Expense" records)
      (sum_of_type "Income" records - sum_of_type "Expense" records)%float.
Proof.
  unfold calculateTotals. rewrite !reduce_filter_sum_of_type. reflexivity.
Qed.

(** *** Sums of doubles that are not negative *)

Lemma shr_1_nonneg mrs : 0 <= shr_m mrs -> 0 <= shr_m (shr_1 mrs).
Proof.
  destruct mrs as [m r s]. cbn. destruct m as [|[p|p|]|[p|p|]]; cbn; lia.
Qed.

Lemma iter_pos_shr_1_nonneg p mrs :
  0 <= shr_m mrs -> 0 <= shr_m (SpecFloat.iter_pos shr_1 p mrs).
Proof.
  revert mrs. induction p as [p IH|p IH|]; intros mrs H; cbn.
  - apply IH, IH, shr_1_nonneg, H.
  - apply IH, IH, H.
  - apply shr_1_nonneg, H.
Qed.

Lemma shr_fexp_nonneg prec emax m e l :
  0 <= m -> 0 <= shr_m (fst (shr_fexp prec emax m e l)).
Proof.
  intros H. unfold shr_fexp, shr.
  assert (H0 : 0 <= shr_m (shr_record_of_loc m l)).
  { destruct l as [|[]]; exact H. }
  destruct (fexp prec emax (Zdigits2 m + e) - e); cbn [fst]; auto.
  apply iter_pos_shr_1_nonneg, H0.
Qed.

Lemma round_nearest_even_nonneg mx lx : 0 <= mx -> 0 <= round_nearest_even mx lx.
Proof.
  intros H. unfold round_nearest_even.
  destruct lx as [|[]]; try destruct (Z.even mx); lia.
Qed.

Lemma binary_round_aux_nonneg prec emax mx ex lx :
  0 <= mx ->
  SFleb (S754_zero false) (binary_round_aux prec emax false mx ex lx) = true.
Proof.
  intros H. unfold binary_round_aux.
  pose proof (shr_fexp_nonneg prec emax mx ex lx H) as H1.
  destruct (shr_fexp prec emax mx ex lx) as [mrs' e']. cbn [fst] in H1.
  pose proof (shr_fexp_nonneg prec emax
                (round_nearest_even (shr_m mrs') (loc_of_shr_record mrs')) e'
                loc_Exact (round_nearest_even_nonneg _ _ H1)) as H2.
  destruct (shr_fexp prec emax _ e' loc_Exact) as [mrs'' e'']. cbn [fst] in H2.
  destruct (shr_m mrs'') as [|p|p]; [reflexivity| |lia].
  destruct (e'' <=? emax - prec)%Z; reflexivity.
Qed.

Lemma SFadd_nonneg prec emax x y :
  SFleb (S754_zero false) x = true -> SFleb (S754_zero false) y = true ->
  SFleb (S754_zero false) (SFadd prec emax x y) = true.
Proof.
  destruct x as [[]|[]| |[] mx ex], y as [[]|[]| |[] my ey]; cbn;
    try discriminate; auto.
  intros _ _. unfold binary_normalize.
  destruct (shl_align mx ex (Z.min ex ey)) as [m1 e1],
    (shl_align my ey (Z.min ex ey)) as [m2 e2].
  cbn [fst]. cbn. unfold binary_round.
  destruct (shl_align _ _ _) as [mz ez].
  apply binary_round_aux_nonneg. lia.
Qed.

(** The sum of two doubles that are at least 0 is at least 0, whatever the
    rounding, an overflow to infinity included. *)
Lemma add_nonneg (a b : float) :
  (0 <=? a)%float = true -> (0 <=? b)%float = true -> (0 <=? a + b)%float = true.
Proof.
  rewrite !leb_spec, add_spec. apply SFadd_nonneg.
Qed.

Lemma amount_or_zero_nonneg (r : Expense.t) :
  (forall n, Expense.amount r = Expense.numeric n -> (0 <=? n)%float = true) ->
  (0 <=? amount_or_zero r)%float = true.
Proof.
  intros H. unfold amount_or_zero.
  destruct (Expense.amount r) as [n|]; [|reflexivity].
  destruct (PrimFloat.is_nan n || PrimFloat.eqb n 0)%bool; [reflexivity|].
  now apply H.
Qed.

Lemma sum_from_nonnegative (ty : string) (records : list Expense.t) (acc : float) :
  (0 <=? acc)%float = true ->
  amounts_nonnegative records -> (0 <=? sum_from acc ty records)%float = true.
Proof.
  revert acc. induction records as [|r rest IH]; intros acc Ha H; simpl.
  - exact Ha.
  - apply IH.
    + destruct (string_dec (Expense.type r) ty); [|exact Ha].
      apply add_nonneg; [exact Ha|].
      apply amount_or_zero_nonneg. intros n. apply H. now left.
    + intros r' n Hin. apply H. now right.
Qed.

Lemma sum_of_type_nonnegative (ty : string) (records : list Expense.t) :
  amounts_nonnegative records -> (0 <=? sum_of_type ty records)%float = true.
Proof. apply sum_from_nonnegative. reflexivity. Qed.

(** C1, as amended.  For every sequence of records, [calculateTotals]
    returns as totalIncome the sum in double arithmetic, taken from 0 and
    from left to right in the order of the sequence, of the amounts of the
    records whose type is exactly "Income", as totalExpense the like sum for
    the type "Expense", an amount that is not numeric counting as 0, and as
    totalBalance their difference in double arithmetic; being a total
    function it answers on every input, and on the empty sequence it
    answers with three zeros. *)
Theorem calculateTotals_sums :
  (forall records,
      totalIncome (calculateTotals records) = sum_of_type "Income" records
      /\ totalExpense (calculateTotals records) = sum_of_type "Expense" records
      /\ totalBalance (calculateTotals records)
         = (totalIncome (calculateTotals records)
            - totalExpense (calculateTotals records))%float)
  /\ calculateTotals [] = mkTotals 0%float 0%float 0%float.
Proof.
  split; [|reflexivity].
  intros records. rewrite calculateTotals_sum_of_type. repeat split.
Qed.

(** The totals are not the exact sums of the amounts.  The amounts 2^53 and
    1 are integers whose sum, 2^53 + 1, no double holds: the income the code
    returns for them is 2^53.  And the three amounts 0.1, 0.2 and 0.3 give
    one income in this order and another in the reverse order. *)
Lemma calculateTotals_exact_sum_counterexample :
  (exact_integer 9007199254740992%float = Some 9007199254740992
   /\ exact_integer 1%float = Some 1
   /\ exact_integer
        (totalIncome
           (calculateTotals
              [Expense.mk Sample.e1 "u" "Income" (Expense.numeric 9007199254740992%float)
                 None (Some 0) None;
               Expense.mk Sample.e2 "u" "Income" (Expense.numeric 1%float) None (Some 0) None]))
      = Some 9007199254740992
   /\ 9007199254740992 <> 9007199254740992 + 1)
  /\ totalIncome
       (calculateTotals
          [Expense.mk Sample.e1 "u" "Income" (Expense.numeric Sample.tenth) None (Some 0) None;
           Expense.mk Sample.e2 "u" "Income" (Expense.numeric Sample.fifth) None (Some 0) None;
           Expense.mk Sample.e3 "u" "Income" (Expense.numeric Sample.three_tenths) None (Some 0) None])
     <> totalIncome
          (calculateTotals
             [Expense.mk Sample.e3 "u" "Income" (Expense.numeric Sample.three_tenths) None (Some 0) None;
              Expense.mk Sample.e2 "u" "Income" (Expense.numeric Sample.fifth) None (Some 0) None;
              Expense.mk Sample.e1 "u" "Income" (Expense.numeric Sample.tenth) None (Some 0) None]).
Proof.
  split.
  - repeat split; try (vm_compute; reflexivity). lia.
  - intros H.
    apply (f_equal (fun x => PrimFloat.eqb x Sample.three_fifths)) in H.
    vm_compute in H. discriminate.
Qed.

(** The match on the type is sensitive to case: a record typed "income"
    adds to neither total. *)
Example calculateTotals_case_sensitive :
  calculateTotals
    [Sample.expense Sample.e1 "u" "income" 5 "x" 0; Sample.expense Sample.e2 "u" "Income" 7 "y" 0;
     Expense.mk Sample.e3 "u" "Income" Expense.unparseable None (Some 0) None]
  = mkTotals 7%float 0%float 7%float.
Proof. reflexivity. Qed.

(** C6. For every record set the totals satisfy totalBalance = totalIncome -
    totalExpense, and when every amount is at least 0 so are totalIncome and
    totalExpense. *)
Theorem calculateTotals_balance_nonnegative (records : list Expense.t) :
  totalBalance (calculateTotals records)
  = (totalIncome (calculateTotals records)
     - totalExpense (calculateTotals records))%float
  /\ (amounts_nonnegative records ->
      (0 <=? totalIncome (calculateTotals records))%float = true
      /\ (0 <=? totalExpense (calculateTotals records))%float = true).
Proof.
  split; [reflexivity|].
  intros H. rewrite calculateTotals_sum_of_type. cbn [totalIncome totalExpense].
  split; apply sum_of_type_nonnegative; exact H.
Qed.

Lemma calculateTotals_balance_nonnegative_witness :
  amounts_nonnegative (expenses Sample.db)
  /\ (0 <=? totalIncome (calculateTotals (expenses Sample.db)))%float = true
  /\ (0 <=? totalExpense (calculateTotals (expenses Sample.db)))%float = true.
Proof.
  assert (H : amounts_nonnegative (expenses Sample.db)).
  { intros r n [<-|[<-|[<-|[]]]] E; injection E as <-; reflexivity. }
  split; [exact H|].
  apply (calculateTotals_balance_nonnegative (expenses Sample.db)); exact H.
Defined.

(** ** The calendar *)

Lemma DayFromYear_step4 y :
  (y + 1 - 1969) / 4 = (y - 1969) / 4 + (if (y mod 4 =? 0)%Z then 1 else 0).
Proof. destruct (Z.eqb_spec (y mod 4) 0); Z.to_euclidean_division_equations; lia. Qed.

Lemma DayFromYear_step100 y :
  (y + 1 - 1901) / 100 = (y - 1901) / 100 + (if (y mod 100 =? 0)%Z then 1 else 0).
Proof. destruct (Z.eqb_spec (y mod 100) 0); Z.to_euclidean_division_equations; lia. Qed.

Lemma DayFromYear_step400 y :
  (y + 1 - 1601) / 400 = (y - 1601) / 400 + (if (y mod 400 =? 0)%Z then 1 else 0).
Proof. destruct (Z.eqb_spec (y mod 400) 0); Z.to_euclidean_division_equations; lia. Qed.

(** A year is as long as [DaysInYear] says. *)
Lemma DayFromYear_succ y :
  Dayjs.DayFromYear (y + 1) = Dayjs.DayFromYear y + Dayjs.DaysInYear y.
Proof.
  unfold Dayjs.DayFromYear, Dayjs.DaysInYear, Dayjs.isLeapYear.
  rewrite DayFromYear_step4, DayFromYear_step100, DayFromYear_step400.
  assert (y mod 400 = 0 -> y mod 100 = 0) by (Z.to_euclidean_division_equations; lia).
  assert (y mod 100 = 0 -> y mod 4 = 0) by (Z.to_euclidean_division_equations; lia).
  destruct (Z.eqb_spec (y mod 4) 0), (Z.eqb_spec (y mod 100) 0),
    (Z.eqb_spec (y mod 400) 0); cbn [andb orb negb]; lia.
Qed.

Lemma DaysInYear_cases y : Dayjs.DaysInYear y = 365 \/ Dayjs.DaysInYear y = 366.
Proof. unfold Dayjs.DaysInYear. destruct (Dayjs.isLeapYear y); auto. Qed.

(** [YearFromDay] finds the year whose days include day [d]. *)
Lemma YearFromDay_bounds d :
  Dayjs.DayFromYear (Dayjs.YearFromDay d) <= d
  < Dayjs.DayFromYear (Dayjs.YearFromDay d + 1).
Proof.
  unfold Dayjs.YearFromDay.
  set (y0 := 1970 + 400 * d / 146097).
  destruct (Z.ltb_spec d (Dayjs.DayFromYear y0)).
  - replace (y0 - 1 + 1) with y0 by lia. split; [|lia].
    unfold Dayjs.DayFromYear in *. subst y0.
    Z.to_euclidean_division_equations; lia.
  - destruct (Z.leb_spec (Dayjs.DayFromYear (y0 + 1)) d); [|lia].
    split; [lia|].
    unfold Dayjs.DayFromYear in *. subst y0.
    Z.to_euclidean_division_equations; lia.
Qed.

Lemma MonthFromDayWithinYear_range leap d :
  0 <= Dayjs.MonthFromDayWithinYear leap d <= 11.
Proof.
  unfold Dayjs.MonthFromDayWithinYear.
  repeat match goal with
         | |- context [if ?b then _ else _] => destruct b
         end; lia.
Qed.

Lemma MonthFromTime_range t : 0 <= Dayjs.MonthFromTime t <= 11.
Proof. apply MonthFromDayWithinYear_range. Qed.

(** Every month has at least one day. *)
Lemma MakeDay_month_nonempty yr m :
  0 <= m <= 11 -> Dayjs.MakeDay yr m 1 <= Dayjs.MakeDay yr (m + 1) 0.
Proof.
  intros Hm. unfold Dayjs.MakeDay.
  assert (Em : m / 12 = 0) by (Z.to_euclidean_division_equations; lia).
  assert (Emn : m mod 12 = m) by (Z.to_euclidean_division_equations; lia).
  rewrite Em, Emn, !Z.add_0_r.
  destruct (Z.eq_dec m 11) as [->|Hne].
  - change ((11 + 1) / 12) with 1. change ((11 + 1) mod 12) with 0.
    rewrite DayFromYear_succ. unfold Dayjs.DaysInYear.
    generalize (Dayjs.DayFromYear yr). intros d0.
    destruct (Dayjs.isLeapYear yr), (Dayjs.isLeapYear (yr + 1)); cbn; lia.
  - assert (E1 : (m + 1) / 12 = 0) by (Z.to_euclidean_division_equations; lia).
    assert (E2 : (m + 1) mod 12 = m + 1) by (Z.to_euclidean_division_equations; lia).
    rewrite E1, E2, !Z.add_0_r.
    generalize (Dayjs.DayFromYear yr). intros d0.
    assert (Hc : m = 0 \/ m = 1 \/ m = 2 \/ m = 3 \/ m = 4 \/ m = 5 \/ m = 6
                 \/ m = 7 \/ m = 8 \/ m = 9 \/ m = 10) by lia.
    destruct (Dayjs.isLeapYear yr);
      repeat (destruct Hc as [->|Hc]; [cbn; lia|]); subst m; cbn; lia.
Qed.

Lemma Day_MakeDate day : Dayjs.Day (Dayjs.MakeDate day 0) = day.
Proof.
  unfold Dayjs.Day, Dayjs.MakeDate, Dayjs.msPerDay.
  rewrite Z.add_0_r. apply Z.div_mul. lia.
Qed.

(** The window of every unit is a proper interval: it starts no later than
    it ends. *)
Lemma startOf_le_endOf (u : Dayjs.unit) (x : Dayjs.t) :
  Dayjs.valueOf (Dayjs.startOf u x) <= Dayjs.valueOf (Dayjs.endOf u x).
Proof.
  destruct u; unfold Dayjs.startOf, Dayjs.endOf, Dayjs.startOf_,
    Dayjs.instanceFactory, Dayjs.instanceFactorySet, Dayjs.setHours; cbn [Dayjs.valueOf].
  - unfold Dayjs.MakeDate, Dayjs.MakeTime, Dayjs.msPerDay, Dayjs.msPerHour,
      Dayjs.msPerMinute, Dayjs.msPerSecond. lia.
  - unfold Dayjs.Date_of. rewrite Day_MakeDate.
    match goal with |- context [Dayjs.MakeDay ?e _ _] => set (yr := e) end.
    pose proof (MakeDay_month_nonempty yr (Dayjs.M x) (MonthFromTime_range _)).
    unfold Dayjs.MakeDate, Dayjs.MakeTime, Dayjs.msPerDay, Dayjs.msPerHour,
      Dayjs.msPerMinute, Dayjs.msPerSecond. lia.
  - unfold Dayjs.Date_of. rewrite Day_MakeDate.
    match goal with |- context [Dayjs.MakeDay ?e _ _] => set (yr := e) end.
    unfold Dayjs.MakeDate, Dayjs.MakeTime, Dayjs.MakeDay, Dayjs.msPerDay,
      Dayjs.msPerHour, Dayjs.msPerMinute, Dayjs.msPerSecond.
    change (0 / 12) with 0. change (0 mod 12) with 0.
    change (11 / 12) with 0. change (11 mod 12) with 11.
    rewrite !Z.add_0_r.
    generalize (Dayjs.DayFromYear yr). intros d0.
    destruct (Dayjs.isLeapYear yr); cbn; lia.
Qed.

(** With both ends inclusive and a proper interval, [isBetween] is on a
    valid date the closed-interval test on time values. *)
Lemma isBetween_closed (x a b : Dayjs.t) :
  Dayjs.valueOf a <= Dayjs.valueOf b ->
  (Dayjs.isBetween (Dayjs.valid x) a b "[]" = true
   <-> Dayjs.valueOf a <= Dayjs.valueOf x <= Dayjs.valueOf b).
Proof.
  intros Hab. unfold Dayjs.isBetween, Dayjs.isBefore, Dayjs.isAfter. cbn.
  destruct (Z.ltb_spec (Dayjs.valueOf x) (Dayjs.valueOf a)),
    (Z.ltb_spec (Dayjs.valueOf b) (Dayjs.valueOf x)),
    (Z.ltb_spec (Dayjs.valueOf a) (Dayjs.valueOf x)),
    (Z.ltb_spec (Dayjs.valueOf x) (Dayjs.valueOf b));
    cbn; split; intros; try lia; try discriminate; try reflexivity.
Qed.

(** On the invalid date every comparison is false, and with both ends
    inclusive the test negates them: it holds, whatever the interval. *)
Lemma isBetween_invalid (a b : Dayjs.t) :
  Dayjs.isBetween Dayjs.invalid a b "[]" = true.
Proof. reflexivity. Qed.

(** The test of the filter on a record, in terms of its date. *)
Lemma isBetween_record (r : Expense.t) (a b : Dayjs.t) :
  Dayjs.valueOf a <= Dayjs.valueOf b ->
  (Dayjs.isBetween (Dayjs.dayjs (Expense.date r) "DD-MM-YYYY") a b "[]" = true
   <-> Expense.date r = None
       \/ dated_within (Dayjs.valueOf a) (Dayjs.valueOf b) r).
Proof.
  intros Hab. unfold dated_within, Dayjs.dayjs.
  destruct (Expense.date r) as [v|].
  - rewrite (isBetween_closed (Dayjs.wrap v) a b Hab). cbn [Dayjs.valueOf].
    split; [auto|]. intros [H|H]; [discriminate|exact H].
  - rewrite isBetween_invalid. split; auto.
Qed.

(** ** Exact subsequences *)




(** ** The time-window filter *)

Lemma includes_valid_token (filter : option string) :
  includes validFilters filter = true <-> valid_token filter.
Proof.
  unfold valid_token. destruct filter as [s|]; cbn.
  - destruct (String.eqb_spec s "today"), (String.eqb_spec s "month"),
      (String.eqb_spec s "year"); subst; cbn; split; intros H; auto;
      try discriminate; destruct H as [H|[H|H]]; congruence.
  - split; [discriminate|]. intros [H|[H|H]]; discriminate.
Qed.

Lemma window_proper (filter : option string) (now : Dayjs.t) :
  Dayjs.valueOf (fst (window filter now)) <= Dayjs.valueOf (snd (window filter now)).
Proof.
  unfold window.
  destruct (strict_eq filter "today"); [apply startOf_le_endOf|].
  destruct (strict_eq filter "month"); apply startOf_le_endOf.
Qed.

(** The records a valid token selects, read off the answer: the caller's
    records whose date is invalid or lies in the window. *)
Lemma expenses_by_time_data filter now req_user db :
  valid_token filter ->
  expenses_by_time filter now req_user db
  = (json (DataBody ("Expenses for " ++ template filter)
             (data_of (fst (expenses_by_time filter now req_user db)))), db)
  /\ forall r,
      In r (data_of (fst (expenses_by_time filter now req_user db)))
      <-> In r (find_by_user (User._id req_user) (expenses db))
          /\ (Expense.date r = None
              \/ dated_within (Dayjs.valueOf (fst (window filter now)))
                   (Dayjs.valueOf (snd (window filter now))) r).
Proof.
  intros Hv. apply includes_valid_token in Hv.
  unfold expenses_by_time. rewrite Hv. cbn [negb].
  pose proof (window_proper filter now) as Hp.
  destruct (window filter now) as [startDate endDate].
  cbn [fst snd data_of body json] in *.
  split; [reflexivity|]. intros r.
  rewrite filter_In, (isBetween_record r _ _ Hp). reflexivity.
Qed.

(** C2 (defect).  The filter does not keep to the window: with every valid
    period token and at every current instant, a record of the caller whose
    date is invalid (null, or a text dayjs cannot read) is in the answer,
    though no date of it falls within any interval.  On the invalid date
    [isBefore] and [isAfter] are both false, and the inclusive test of
    [isBetween] negates them. *)
Theorem expenses_by_time_keeps_invalid_date
    (filter : option string) (now : Dayjs.t) (req_user : User.t) (db : Db)
    (r : Expense.t) :
  valid_token filter ->
  In r (find_by_user (User._id req_user) (expenses db)) ->
  Expense.date r = None ->
  In r (data_of (fst (expenses_by_time filter now req_user db)))
  /\ forall first last, ~ dated_within first last r.
Proof.
  intros Hv Hin Hd. split.
  - apply (expenses_by_time_data filter now req_user db Hv). auto.
  - intros first last. unfold dated_within. rewrite Hd. tauto.
Qed.

(** Ann clears the date of her grocery record with PUT /expense/:id and the
    body [{ date: null }], which the handler stores unchecked; from then on
    the record is in her answer for "today", beside the one record that is
    dated today. *)
Lemma expenses_by_time_keeps_invalid_date_witness :
  let undated :=
    Expense.mk Sample.e2 "u1" "Expense" (Expense.numeric 120) (Some "Groceries")
      None None in
  let db :=
    snd (update_expense Sample.of_bytes Sample.message (Oid.hex Sample.e2)
           (mkUpdateBody None None None (Some None) None) Sample.ann Sample.db) in
  (valid_token (Some "today")
   /\ In undated (find_by_user (User._id Sample.ann) (expenses db))
   /\ Expense.date undated = None)
  /\ db = mkDb [Sample.salary; undated; Sample.rent] [Sample.ann; Sample.bob]
  /\ expenses_by_time (Some "today") Sample.now Sample.ann db
     = (json (DataBody "Expenses for today" [Sample.salary; undated]), db)
  /\ In undated
       (data_of (fst (expenses_by_time (Some "today") Sample.now Sample.ann db)))
  /\ forall first last, ~ dated_within first last undated.
Proof.
  intros undated db.
  assert (Hv : valid_token (Some "today")) by (left; reflexivity).
  assert (Hin : In undated (find_by_user (User._id Sample.ann) (expenses db))).
  { right. left. reflexivity. }
  split; [repeat split; assumption|].
  split; [reflexivity|].
  split; [reflexivity|].
  apply (expenses_by_time_keeps_invalid_date (Some "today") Sample.now Sample.ann
           db undated Hv Hin eq_refl).
Defined.

(** On records with valid dates the filter does what the claim says of
    them: on 2024-03-15 at 10:00 the token today keeps the record dated
    2024-03-15, at the midnight that starts the window, and drops the one
    dated 2024-03-14. *)
Example expenses_by_time_today_valid_dates :
  Expense.date Sample.salary
  = Some (Dayjs.valueOf (fst (window (Some "today") Sample.now)))
  /\ expenses_by_time (Some "today") Sample.now Sample.ann
       (mkDb [Sample.salary; Sample.food] [Sample.ann])
     = (json (DataBody "Expenses for today" [Sample.salary]),
        mkDb [Sample.salary; Sample.food] [Sample.ann]).
Proof. split; reflexivity. Qed.

(** The instants of one day are those of its midnight and the 86399999
    milliseconds after it. *)
Lemma Day_bounds t :
  Dayjs.Day t * Dayjs.msPerDay <= t <= Dayjs.Day t * Dayjs.msPerDay + 86399999.
Proof.
  unfold Dayjs.Day, Dayjs.msPerDay. Z.to_euclidean_division_equations; lia.
Qed.

Lemma Day_unique d t :
  d * Dayjs.msPerDay <= t <= d * Dayjs.msPerDay + 86399999 -> Dayjs.Day t = d.
Proof.
  unfold Dayjs.Day, Dayjs.msPerDay. intros H.
  Z.to_euclidean_division_equations; lia.
Qed.

(** The window of "today" is the calendar day of the current instant: a
    date lies in it exactly when it falls on the same day. *)
Lemma window_today_same_day (now : Dayjs.t) (date : Z) :
  Dayjs.valueOf (fst (window (Some "today") now)) <= date
  <= Dayjs.valueOf (snd (window (Some "today") now))
  <-> Dayjs.Day date = Dayjs.Day (Dayjs.valueOf now).
Proof.
  cbn.
  unfold Dayjs.setHours, Dayjs.MakeDate, Dayjs.MakeTime.
  change (0 * Dayjs.msPerHour + 0 * Dayjs.msPerMinute + 0 * Dayjs.msPerSecond + 0)
    with 0.
  change (23 * Dayjs.msPerHour + 59 * Dayjs.msPerMinute + 59 * Dayjs.msPerSecond + 999)
    with 86399999.
  split.
  - intros H. apply Day_unique. lia.
  - intros H. rewrite <- H. pose proof (Day_bounds (date)). lia.
Qed.

Lemma MonthFromDayWithinYear_bounds (leap : bool) (d : Z) :
  0 <= d < (if leap then 366 else 365) ->
  let m := Dayjs.MonthFromDayWithinYear leap d in
  Dayjs.daysBeforeMonth leap m <= d
  /\ (m = 11 \/ d < Dayjs.daysBeforeMonth leap (m + 1)).
Proof.
  intros Hd. unfold Dayjs.MonthFromDayWithinYear.
  repeat match goal with
         | |- context [if (?a <? ?b)%Z then _ else _] =>
             destruct (Z.ltb_spec a b); [destruct leap; cbn in *; lia|]
         end.
  destruct leap; cbn in *; lia.
Qed.

(** Outside the years 0 to 99, which [new Date(y, m, d)] reads as 1900 + y,
    the window of each period contains the current instant. *)
Lemma window_contains_now (filter : option string) (now : Dayjs.t) :
  ~ 0 <= Dayjs.y now <= 99 ->
  Dayjs.valueOf (fst (window filter now)) <= Dayjs.valueOf now
  <= Dayjs.valueOf (snd (window filter now)).
Proof.
  intros Hy.
  pose proof (Day_bounds (Dayjs.valueOf now)) as Hday.
  pose proof (YearFromDay_bounds (Dayjs.Day (Dayjs.valueOf now))) as Hyear.
  rewrite DayFromYear_succ in Hyear.
  assert (Hq : (if ((0 <=? Dayjs.y now)%Z && (Dayjs.y now <=? 99)%Z)%bool
                then 1900 + Dayjs.y now else Dayjs.y now) = Dayjs.y now).
  { destruct (Z.leb_spec 0 (Dayjs.y now)), (Z.leb_spec (Dayjs.y now) 99);
      cbn [andb]; lia. }
  unfold window.
  destruct (strict_eq filter "today"); [|destruct (strict_eq filter "month")];
    cbn [fst snd Dayjs.startOf Dayjs.endOf Dayjs.startOf_ Dayjs.instanceFactory
           Dayjs.instanceFactorySet Dayjs.valueOf].
  - unfold Dayjs.setHours, Dayjs.MakeDate, Dayjs.MakeTime, Dayjs.msPerHour,
      Dayjs.msPerMinute, Dayjs.msPerSecond in *. lia.
  - unfold Dayjs.setHours, Dayjs.Date_of. rewrite Day_MakeDate, Hq.
    pose proof (MonthFromDayWithinYear_bounds
                  (Dayjs.isLeapYear (Dayjs.YearFromTime (Dayjs.valueOf now)))
                  (Dayjs.DayWithinYear (Dayjs.valueOf now))) as Hm.
    pose proof (MonthFromTime_range (Dayjs.valueOf now)) as Hr.
    unfold Dayjs.M, Dayjs.y, Dayjs.MonthFromTime, Dayjs.DayWithinYear,
      Dayjs.YearFromTime, Dayjs.DaysInYear in *.
    set (yr := Dayjs.YearFromDay (Dayjs.Day (Dayjs.valueOf now))) in *.
    set (m := Dayjs.MonthFromDayWithinYear _ _) in *.
    cbv zeta in Hm.
    assert (Hm' : Dayjs.daysBeforeMonth (Dayjs.isLeapYear yr) m
                  <= Dayjs.Day (Dayjs.valueOf now) - Dayjs.DayFromYear yr
                  /\ (m = 11 \/ Dayjs.Day (Dayjs.valueOf now) - Dayjs.DayFromYear yr
                                < Dayjs.daysBeforeMonth (Dayjs.isLeapYear yr) (m + 1))).
    { apply Hm. destruct (Dayjs.isLeapYear yr); lia. }
    clear Hm. destruct Hm' as [Hlo Hhi].
    unfold Dayjs.MakeDay.
    assert (Em : m / 12 = 0) by (Z.to_euclidean_division_equations; lia).
    assert (Emn : m mod 12 = m) by (Z.to_euclidean_division_equations; lia).
    rewrite Em, Emn, !Z.add_0_r.
    unfold Dayjs.MakeDate, Dayjs.MakeTime, Dayjs.msPerDay, Dayjs.msPerHour,
      Dayjs.msPerMinute, Dayjs.msPerSecond in *.
    destruct (Z.eq_dec m 11) as [E11|Hne].
    + rewrite E11 in *.
      change ((11 + 1) / 12) with 1. change ((11 + 1) mod 12) with 0.
      rewrite DayFromYear_succ. unfold Dayjs.DaysInYear.
      change (Dayjs.daysBeforeMonth (Dayjs.isLeapYear (yr + 1)) 0) with 0.
      destruct (Dayjs.isLeapYear yr); lia.
    + assert (E1 : (m + 1) / 12 = 0) by (Z.to_euclidean_division_equations; lia).
      assert (E2 : (m + 1) mod 12 = m + 1) by (Z.to_euclidean_division_equations; lia).
      rewrite E1, E2, !Z.add_0_r.
      destruct Hhi as [?|Hhi]; [contradiction|]. lia.
  - unfold Dayjs.setHours, Dayjs.Date_of. rewrite Day_MakeDate, Hq.
    unfold Dayjs.y, Dayjs.YearFromTime, Dayjs.DaysInYear, Dayjs.MakeDay in *.
    set (yr := Dayjs.YearFromDay (Dayjs.Day (Dayjs.valueOf now))) in *.
    change (0 / 12) with 0. change (0 mod 12) with 0.
    change (11 / 12) with 0. change (11 mod 12) with 11.
    rewrite !Z.add_0_r.
    unfold Dayjs.MakeDate, Dayjs.MakeTime, Dayjs.msPerDay, Dayjs.msPerHour,
      Dayjs.msPerMinute, Dayjs.msPerSecond in *.
    destruct (Dayjs.isLeapYear yr); cbn [Dayjs.daysBeforeMonth Z.leb Z.eqb Z.compare Pos.compare Pos.eqb];
      cbn in *; lia.
Qed.

Lemma DayFromYear_monotone a b :
  a <= b -> Dayjs.DayFromYear a <= Dayjs.DayFromYear b.
Proof.
  intros H. unfold Dayjs.DayFromYear. Z.to_euclidean_division_equations; lia.
Qed.

(** The year of a day is the only year whose days include it. *)
Lemma YearFromDay_unique y d :
  Dayjs.DayFromYear y <= d < Dayjs.DayFromYear (y + 1) -> Dayjs.YearFromDay d = y.
Proof.
  intros H. pose proof (YearFromDay_bounds d) as Hb.
  set (y' := Dayjs.YearFromDay d) in *.
  destruct (Z.lt_trichotomy y' y) as [Hlt|[Heq|Hgt]]; [|exact Heq|].
  - pose proof (DayFromYear_monotone (y' + 1) y). lia.
  - pose proof (DayFromYear_monotone (y + 1) y'). lia.
Qed.

Lemma not_two_digit_year y :
  ~ 0 <= y <= 99 ->
  (if ((0 <=? y)%Z && (y <=? 99)%Z)%bool then 1900 + y else y) = y.
Proof.
  intros H. destruct (Z.leb_spec 0 y), (Z.leb_spec y 99); cbn [andb]; lia.
Qed.

(** Outside the years 0 to 99 the window of "year" is the calendar year of
    the current instant. *)
Lemma window_year_same_year (now : Dayjs.t) (date : Z) :
  ~ 0 <= Dayjs.y now <= 99 ->
  (Dayjs.valueOf (fst (window (Some "year") now)) <= date
   <= Dayjs.valueOf (snd (window (Some "year") now))
   <-> Dayjs.YearFromTime date = Dayjs.y now).
Proof.
  intros Hy. cbn.
  unfold Dayjs.setHours, Dayjs.Date_of. rewrite Day_MakeDate, (not_two_digit_year _ Hy).
  unfold Dayjs.MakeDay.
  change (0 / 12) with 0. change (0 mod 12) with 0.
  change (11 / 12) with 0. change (11 mod 12) with 11.
  rewrite !Z.add_0_r.
  pose proof (DayFromYear_succ (Dayjs.y now)) as Hs. unfold Dayjs.DaysInYear in Hs.
  pose proof (Day_bounds (date)) as Hd.
  unfold Dayjs.YearFromTime.
  split.
  - intros H. apply YearFromDay_unique. rewrite Hs.
    unfold Dayjs.MakeDate, Dayjs.MakeTime, Dayjs.msPerDay, Dayjs.msPerHour,
      Dayjs.msPerMinute, Dayjs.msPerSecond in *.
    destruct (Dayjs.isLeapYear (Dayjs.y now)); cbn in H; lia.
  - intros H. pose proof (YearFromDay_bounds (Dayjs.Day (date))) as Hb.
    rewrite H, Hs in Hb.
    unfold Dayjs.MakeDate, Dayjs.MakeTime, Dayjs.msPerDay, Dayjs.msPerHour,
      Dayjs.msPerMinute, Dayjs.msPerSecond in *.
    destruct (Dayjs.isLeapYear (Dayjs.y now)); cbn; lia.
Qed.

Lemma MonthFromDayWithinYear_unique (leap : bool) (m d : Z) :
  0 <= m <= 11 ->
  Dayjs.daysBeforeMonth leap m <= d ->
  (m = 11 \/ d < Dayjs.daysBeforeMonth leap (m + 1)) ->
  Dayjs.MonthFromDayWithinYear leap d = m.
Proof.
  intros Hm Hlo Hhi.
  assert (Hc : m = 0 \/ m = 1 \/ m = 2 \/ m = 3 \/ m = 4 \/ m = 5 \/ m = 6
               \/ m = 7 \/ m = 8 \/ m = 9 \/ m = 10 \/ m = 11) by lia.
  unfold Dayjs.MonthFromDayWithinYear.
  destruct leap;
    repeat (destruct Hc as [->|Hc];
            [cbn in *;
             repeat match goal with
                    | |- context [if (?a <? ?b)%Z then _ else _] =>
                        destruct (Z.ltb_spec a b)
                    end; lia|]);
    subst m; cbn in *;
    repeat match goal with
           | |- context [if (?a <? ?b)%Z then _ else _] =>
               destruct (Z.ltb_spec a b)
           end; lia.
Qed.

Lemma daysBeforeMonth_range (leap : bool) (m : Z) :
  0 <= m <= 11 ->
  0 <= Dayjs.daysBeforeMonth leap m
  /\ (m < 11 -> Dayjs.daysBeforeMonth leap (m + 1) <= (if leap then 366 else 365)).
Proof.
  intros Hm.
  assert (Hc : m = 0 \/ m = 1 \/ m = 2 \/ m = 3 \/ m = 4 \/ m = 5 \/ m = 6
               \/ m = 7 \/ m = 8 \/ m = 9 \/ m = 10 \/ m = 11) by lia.
  destruct leap;
    repeat (destruct Hc as [->|Hc]; [cbn; lia|]); subst m; cbn; lia.
Qed.

(** Outside the years 0 to 99 the window of "month" is the calendar month
    of the current instant. *)
Lemma window_month_same_month (now : Dayjs.t) (date : Z) :
  ~ 0 <= Dayjs.y now <= 99 ->
  (Dayjs.valueOf (fst (window (Some "month") now)) <= date
   <= Dayjs.valueOf (snd (window (Some "month") now))
   <-> Dayjs.YearFromTime date = Dayjs.y now
       /\ Dayjs.MonthFromTime date = Dayjs.M now).
Proof.
  intros Hy. cbn.
  unfold Dayjs.setHours, Dayjs.Date_of. rewrite Day_MakeDate, (not_two_digit_year _ Hy).
  pose proof (MonthFromTime_range (Dayjs.valueOf now)) as Hm.
  fold (Dayjs.M now) in Hm.
  set (y := Dayjs.y now) in *. set (m := Dayjs.M now) in *.
  pose proof (DayFromYear_succ y) as Hs. unfold Dayjs.DaysInYear in Hs.
  pose proof (Day_bounds (date)) as Hd.
  pose proof (daysBeforeMonth_range (Dayjs.isLeapYear y) m Hm) as [Hr0 Hr1].
  assert (Elo : Dayjs.MakeDay y m 1
                = Dayjs.DayFromYear y + Dayjs.daysBeforeMonth (Dayjs.isLeapYear y) m).
  { unfold Dayjs.MakeDay.
    assert (Em : m / 12 = 0) by (Z.to_euclidean_division_equations; lia).
    assert (Emn : m mod 12 = m) by (Z.to_euclidean_division_equations; lia).
    rewrite Em, Emn, !Z.add_0_r. lia. }
  assert (Ehi : Dayjs.MakeDay y (m + 1) 0
                = (if (m =? 11)%Z then Dayjs.DayFromYear (y + 1)
                   else Dayjs.DayFromYear y
                        + Dayjs.daysBeforeMonth (Dayjs.isLeapYear y) (m + 1)) - 1).
  { unfold Dayjs.MakeDay. destruct (Z.eqb_spec m 11) as [->|Hne].
    - change ((11 + 1) / 12) with 1. change ((11 + 1) mod 12) with 0.
      change (Dayjs.daysBeforeMonth (Dayjs.isLeapYear (y + 1)) 0) with 0. lia.
    - assert (E1 : (m + 1) / 12 = 0) by (Z.to_euclidean_division_equations; lia).
      assert (E2 : (m + 1) mod 12 = m + 1) by (Z.to_euclidean_division_equations; lia).
      rewrite E1, E2, !Z.add_0_r. lia. }
  rewrite Elo, Ehi.
  unfold Dayjs.MonthFromTime, Dayjs.DayWithinYear, Dayjs.YearFromTime.
  set (d := Dayjs.Day (date)) in *.
  unfold Dayjs.MakeDate, Dayjs.MakeTime, Dayjs.msPerDay, Dayjs.msPerHour,
    Dayjs.msPerMinute, Dayjs.msPerSecond in *.
  split.
  - intros H.
    assert (Ey : Dayjs.YearFromDay d = y).
    { apply YearFromDay_unique. rewrite Hs.
      destruct (Z.eqb_spec m 11); destruct (Dayjs.isLeapYear y); lia. }
    split; [exact Ey|]. rewrite Ey.
    apply MonthFromDayWithinYear_unique; [exact Hm|lia|].
    destruct (Z.eqb_spec m 11); [now left|right; lia].
  - intros [Ey Em]. pose proof (YearFromDay_bounds d) as Hb.
    rewrite Ey, Hs in Hb. rewrite Ey in Em.
    pose proof (MonthFromDayWithinYear_bounds (Dayjs.isLeapYear y)
                  (d - Dayjs.DayFromYear y)) as Hmb.
    cbv zeta in Hmb. rewrite Em in Hmb.
    destruct Hmb as [Hlo Hhi]; [destruct (Dayjs.isLeapYear y); lia|].
    destruct (Z.eqb_spec m 11); [lia|].
    destruct Hhi as [?|Hhi]; [contradiction|]. lia.
Qed.

(** C3. For every filter token other than "today", "month" and "year", a
    missing token included, the time-window endpoint answers 400 with a
    validation error; it computes no window, returns no records and leaves
    the store as it was. *)
Theorem expenses_by_time_rejects_unknown_token
    (filter : option string) (now : Dayjs.t) (req_user : User.t) (db : Db) :
  ~ valid_token filter ->
  expenses_by_time filter now req_user db
  = (mkResponse 400
       (ErrorBody "Invalid filter. Use 'today', 'month', or 'year'."), db)
  /\ status (fst (expenses_by_time filter now req_user db)) = 400
  /\ data_of (fst (expenses_by_time filter now req_user db)) = [].
Proof.
  intros Hv.
  assert (E : includes validFilters filter = false).
  { destruct (includes validFilters filter) eqn:E; [|reflexivity].
    apply includes_valid_token in E. contradiction. }
  unfold expenses_by_time. rewrite E. cbn. repeat split.
Qed.

Lemma expenses_by_time_rejects_unknown_token_witness :
  (~ valid_token (Some "week") /\ ~ valid_token None)
  /\ fst (expenses_by_time (Some "week") Sample.now Sample.ann Sample.db)
     = mkResponse 400
         (ErrorBody "Invalid filter. Use 'today', 'month', or 'year'.")
  /\ fst (expenses_by_time None Sample.now Sample.ann Sample.db)
     = mkResponse 400
         (ErrorBody "Invalid filter. Use 'today', 'month', or 'year'.").
Proof.
  assert (H1 : ~ valid_token (Some "week")).
  { intros [H|[H|H]]; discriminate. }
  assert (H2 : ~ valid_token None).
  { intros [H|[H|H]]; discriminate. }
  split; [split; assumption|].
  split.
  - destruct (expenses_by_time_rejects_unknown_token (Some "week") Sample.now
                Sample.ann Sample.db H1) as [E _].
    rewrite E. reflexivity.
  - destruct (expenses_by_time_rejects_unknown_token None Sample.now
                Sample.ann Sample.db H2) as [E _].
    rewrite E. reflexivity.
Defined.

(** ** ObjectIds *)

Lemma Oid_hex_inj (a b : Oid.t) : Oid.hex a = Oid.hex b -> a = b.
Proof.
  destruct a as [s Hs], b as [s' Hs']. cbn. intros <-.
  f_equal. apply (UIP_dec bool_dec).
Qed.

Lemma Oid_eqb_spec (a b : Oid.t) : reflect (a = b) (Oid.eqb a b).
Proof.
  unfold Oid.eqb. destruct (String.eqb_spec (Oid.hex a) (Oid.hex b)) as [E|E].
  - constructor. apply Oid_hex_inj, E.
  - constructor. intros ->. apply E. reflexivity.
Qed.

Lemma Oid_eqb_refl (a : Oid.t) : Oid.eqb a a = true.
Proof. unfold Oid.eqb. apply String.eqb_refl. Qed.

Lemma toLowerCase_hex_digit c :
  Oid.is_hex_digit c = true -> Str.toLowerCase c = c.
Proof.
  destruct c as [[] [] [] [] [] [] [] []]; intros H;
    (reflexivity || (vm_compute in H; discriminate H)).
Qed.

Lemma map_toLowerCase_hex s :
  Str.forallb Oid.is_hex_digit s = true -> Str.map Str.toLowerCase s = s.
Proof.
  induction s as [|c s IH]; simpl; [reflexivity|].
  intros H. apply andb_true_iff in H. destruct H as [Hc Hs].
  rewrite (toLowerCase_hex_digit c Hc), (IH Hs). reflexivity.
Qed.

Lemma Oid_of_hex_hex (o : Oid.t) : Oid.of_hex (Oid.hex o) = Some o.
Proof.
  unfold Oid.of_hex.
  destruct (bool_dec (Oid.canonical (Oid.hex o)) true) as [H|H].
  - f_equal. apply Oid_hex_inj. reflexivity.
  - destruct (H (Oid.hex_canonical o)).
Qed.

(** The cast reads the hexadecimal form of an ObjectId as that ObjectId,
    whatever the driver makes of the strings of 12 characters. *)
Lemma Oid_cast_hex (of_bytes : string -> option Oid.t) (o : Oid.t) :
  Oid.cast of_bytes (Oid.hex o) = Some o.
Proof.
  unfold Oid.cast.
  pose proof (Oid.hex_canonical o) as H. unfold Oid.canonical in H.
  apply andb_true_iff in H. destruct H as [Hl Hd].
  apply Nat.eqb_eq in Hl. rewrite Hl. cbn [Nat.eqb].
  rewrite (map_toLowerCase_hex _ Hd). apply Oid_of_hex_hex.
Qed.

(** ** Create, update and delete *)

Lemma findByIdAndUpdate_None id f l :
  findByIdAndUpdate id f l = None <-> findById id l = None.
Proof.
  unfold findById. induction l as [|r l IH]; simpl; [tauto|].
  destruct (Oid.eqb (Expense._id r) id); [split; discriminate|].
  destruct (findByIdAndUpdate id f l) as [[u l'']|]; rewrite <- IH;
    split; auto; discriminate.
Qed.

Lemma findByIdAndDelete_None id l :
  findByIdAndDelete id l = None <-> findById id l = None.
Proof.
  unfold findById. induction l as [|r l IH]; simpl; [tauto|].
  destruct (Oid.eqb (Expense._id r) id); [split; discriminate|].
  destruct (findByIdAndDelete id l) as [[u l'']|]; rewrite <- IH;
    split; auto; discriminate.
Qed.

Lemma findById_absent id l :
  (forall r, In r l -> Expense._id r <> id) -> findById id l = None.
Proof.
  intros H. unfold findById.
  destruct (find _ l) as [r|] eqn:E; [|reflexivity].
  apply find_some in E. destruct E as [Hin Heq].
  destruct (Oid_eqb_spec (Expense._id r) id) as [Heq'|]; [|discriminate].
  exfalso. exact (H r Hin Heq').
Qed.

(** Deleting takes out one record and keeps the others in order. *)
Lemma findByIdAndDelete_Some id l d l' :
  findByIdAndDelete id l = Some (d, l') ->
  Expense._id d = id
  /\ exists before after,
      l = (before ++ d :: after)%list /\ l' = (before ++ after)%list.
Proof.
  revert l'. induction l as [|r l IH]; intros l'; simpl; [discriminate|].
  destruct (Oid_eqb_spec (Expense._id r) id) as [E|E].
  - intros [= <- <-]. split; [exact E|]. exists [], l. split; reflexivity.
  - destruct (findByIdAndDelete id l) as [[d' l'']|]; [|discriminate].
    intros [= <- <-]. destruct (IH l'' eq_refl) as (Hd & b & a & -> & ->).
    split; [exact Hd|]. exists (r :: b), a. split; reflexivity.
Qed.

(** Updating rewrites one record in place. *)
Lemma findByIdAndUpdate_Some id f l u l' :
  findByIdAndUpdate id f l = Some (u, l') ->
  exists before r after,
    Expense._id r = id /\ u = f r
    /\ l = (before ++ r :: after)%list /\ l' = (before ++ u :: after)%list.
Proof.
  revert l'. induction l as [|r l IH]; intros l'; simpl; [discriminate|].
  destruct (Oid_eqb_spec (Expense._id r) id) as [E|E].
  - intros [= <- <-]. exists [], r, l. repeat split; auto.
  - destruct (findByIdAndUpdate id f l) as [[u' l'']|]; [|discriminate].
    intros [= <- <-]. destruct (IH l'' eq_refl) as (b & r0 & a & ? & ? & -> & ->).
    exists (r :: b), r0, a. repeat split; auto.
Qed.

Section ExpenseById.

Variable of_bytes : string -> option Oid.t.
Variable message : string -> string.

(** An update or a delete succeeds exactly when the id is cast to the id of
    a record. *)
Lemma update_expense_status id req_body req_user db :
  status (fst (update_expense of_bytes message id req_body req_user db)) = 200
  <-> exists oid,
      castObjectId of_bytes id = Some oid /\ findById oid (expenses db) <> None.
Proof.
  unfold update_expense.
  destruct (castObjectId of_bytes id) as [oid|].
  - pose proof (findByIdAndUpdate_None oid (apply_update req_body) (expenses db))
      as Hn.
    destruct (findByIdAndUpdate oid (apply_update req_body) (expenses db))
      as [[u stored]|]; cbn; split.
    + intros _. exists oid. split; [reflexivity|].
      intros E. apply Hn in E. discriminate.
    + reflexivity.
    + discriminate.
    + intros (o & [= <-] & H). destruct H. apply Hn. reflexivity.
  - cbn. split; [discriminate|]. intros (o & E & _). discriminate.
Qed.

Lemma delete_expense_status id req_user db :
  status (fst (delete_expense of_bytes message id req_user db)) = 200
  <-> exists oid,
      castObjectId of_bytes id = Some oid /\ findById oid (expenses db) <> None.
Proof.
  unfold delete_expense.
  destruct (castObjectId of_bytes id) as [oid|].
  - pose proof (findByIdAndDelete_None oid (expenses db)) as Hn.
    destruct (findByIdAndDelete oid (expenses db)) as [[d stored]|]; cbn; split.
    + intros _. exists oid. split; [reflexivity|].
      intros E. apply Hn in E. discriminate.
    + reflexivity.
    + discriminate.
    + intros (o & [= <-] & H). destruct H. apply Hn. reflexivity.
  - cbn. split; [discriminate|]. intros (o & E & _). discriminate.
Qed.

(** A successful delete takes one record with the id out of the collection
    and keeps every other record, whoever owns it. *)
Lemma delete_expense_store id req_user db :
  status (fst (delete_expense of_bytes message id req_user db)) = 200 ->
  exists before deleted after,
    castObjectId of_bytes id = Some (Expense._id deleted)
    /\ expenses db = (before ++ deleted :: after)%list
    /\ expenses (snd (delete_expense of_bytes message id req_user db))
       = (before ++ after)%list.
Proof.
  unfold delete_expense.
  destruct (castObjectId of_bytes id) as [oid|]; [|discriminate].
  destruct (findByIdAndDelete oid (expenses db)) as [[d stored]|] eqn:E; cbn;
    [|discriminate].
  intros _. destruct (findByIdAndDelete_Some _ _ _ _ E) as (Hd & b & a & H1 & H2).
  exists b, d, a. rewrite Hd. auto.
Qed.

(** A successful update rewrites one record with the id in place and keeps
    every other record, whoever owns it. *)
Lemma update_expense_store id req_body req_user db :
  status (fst (update_expense of_bytes message id req_body req_user db)) = 200 ->
  exists before r after,
    castObjectId of_bytes id = Some (Expense._id r)
    /\ expenses db = (before ++ r :: after)%list
    /\ expenses (snd (update_expense of_bytes message id req_body req_user db))
       = (before ++ apply_update req_body r :: after)%list.
Proof.
  unfold update_expense.
  destruct (castObjectId of_bytes id) as [oid|]; [|discriminate].
  destruct (findByIdAndUpdate oid (apply_update req_body) (expenses db))
    as [[u stored]|] eqn:E; cbn; [|discriminate].
  intros _.
  destruct (findByIdAndUpdate_Some _ _ _ _ _ E) as (b & r & a & Hr & -> & H1 & H2).
  exists b, r, a. rewrite Hr. auto.
Qed.

(** C5. For every update and every delete of a record by id that succeeds
    (status 200), the totals of the response are [calculateTotals] over the
    whole expense collection as the operation leaves it, the records of all
    users, with no condition on the owner. *)
Theorem update_delete_totals_over_whole_store
    (id : string) (req_body : UpdateBody) (req_user : User.t) (db : Db) :
  (status (fst (update_expense of_bytes message id req_body req_user db)) = 200 ->
   exists updatedRecord,
     fst (update_expense of_bytes message id req_body req_user db)
     = json (ChangedBody "Expense updated successfully" updatedRecord
               (calculateTotals
                  (expenses
                     (snd (update_expense of_bytes message id req_body req_user
                             db))))))
  /\ (status (fst (delete_expense of_bytes message id req_user db)) = 200 ->
      exists deletedRecord,
        fst (delete_expense of_bytes message id req_user db)
        = json (ChangedBody "Expense deleted successfully" deletedRecord
                  (calculateTotals
                     (expenses
                        (snd (delete_expense of_bytes message id req_user db)))))).
Proof.
  split.
  - unfold update_expense.
    destruct (castObjectId of_bytes id) as [oid|]; [|discriminate].
    destruct (findByIdAndUpdate oid (apply_update req_body) (expenses db))
      as [[u stored]|]; cbn; [|discriminate].
    intros _. exists u. reflexivity.
  - unfold delete_expense.
    destruct (castObjectId of_bytes id) as [oid|]; [|discriminate].
    destruct (findByIdAndDelete oid (expenses db)) as [[d stored]|]; cbn;
      [|discriminate].
    intros _. exists d. reflexivity.
Qed.

(** C8, as amended.  For every id that the store casts to an ObjectId which
    no record of the store carries, delete answers 404 with a not-found
    error and leaves the store unchanged; for an id the cast refuses, the
    query throws, the handler answers 500 with the message of the error, and
    the store is unchanged as well. *)
Theorem delete_expense_unknown_id
    (id : string) (req_user : User.t) (db : Db) :
  (forall oid,
      castObjectId of_bytes id = Some oid ->
      (forall r, In r (expenses db) -> Expense._id r <> oid) ->
      delete_expense of_bytes message id req_user db
      = (mkResponse 404 (ErrorBody "Record not found"), db))
  /\ (castObjectId of_bytes id = None ->
      delete_expense of_bytes message id req_user db
      = (mkResponse 500 (ErrorBody (message id)), db)).
Proof.
  split.
  - intros oid Ec H. unfold delete_expense. rewrite Ec.
    assert (E : findByIdAndDelete oid (expenses db) = None).
    { apply findByIdAndDelete_None, findById_absent, H. }
    rewrite E. reflexivity.
  - intros Ec. unfold delete_expense. rewrite Ec. reflexivity.
Qed.

End ExpenseById.

(** On the sample store Ann renames her grocery record, or deletes it: either
    answer counts Bob's rent, so neither is the total of Ann's own
    records. *)
Lemma update_delete_totals_over_whole_store_witness :
  let upd := update_expense Sample.of_bytes Sample.message (Oid.hex Sample.e2)
               (mkUpdateBody None None (Some "Food") None None)
               Sample.ann Sample.db in
  let del := delete_expense Sample.of_bytes Sample.message (Oid.hex Sample.e2)
               Sample.ann Sample.db in
  (status (fst upd) = 200 /\ status (fst del) = 200)
  /\ (exists r, body (fst upd)
                = ChangedBody "Expense updated successfully" r (mkTotals 3000 1020 1980))
  /\ (exists r, body (fst del)
                = ChangedBody "Expense deleted successfully" r (mkTotals 3000 900 2100))
  /\ calculateTotals (find_by_user "u1" (expenses (snd upd))) = mkTotals 3000 120 2880
  /\ calculateTotals (find_by_user "u1" (expenses (snd del))) = mkTotals 3000 0 3000.
Proof.
  intros upd del.
  assert (Hu : status (fst upd) = 200) by reflexivity.
  assert (Hd : status (fst del) = 200) by reflexivity.
  split; [split; assumption|].
  destruct (update_delete_totals_over_whole_store Sample.of_bytes Sample.message
              (Oid.hex Sample.e2)
              (mkUpdateBody None None (Some "Food") None None) Sample.ann Sample.db)
    as [Hupd _].
  destruct (update_delete_totals_over_whole_store Sample.of_bytes Sample.message
              (Oid.hex Sample.e2)
              (mkUpdateBody None None None None None) Sample.ann Sample.db)
    as [_ Hdel].
  destruct (Hupd Hu) as [r Er]. destruct (Hdel Hd) as [r' Er'].
  split; [exists r; fold upd in Er; rewrite Er; reflexivity|].
  split; [exists r'; fold del in Er'; rewrite Er'; reflexivity|].
  split; reflexivity.
Defined.

(** The id of no sample record, in its hexadecimal form, is answered 404;
    the string "e9", which is no ObjectId, is answered 500. *)
Lemma delete_expense_unknown_id_witness :
  (castObjectId Sample.of_bytes (Oid.hex Sample.e9) = Some Sample.e9
   /\ (forall r, In r (expenses Sample.db) -> Expense._id r <> Sample.e9)
   /\ castObjectId Sample.of_bytes "e9" = None)
  /\ delete_expense Sample.of_bytes Sample.message (Oid.hex Sample.e9)
       Sample.ann Sample.db
     = (mkResponse 404 (ErrorBody "Record not found"), Sample.db)
  /\ delete_expense Sample.of_bytes Sample.message "e9" Sample.ann Sample.db
     = (mkResponse 500 (ErrorBody (Sample.message "e9")), Sample.db).
Proof.
  assert (Ec : castObjectId Sample.of_bytes (Oid.hex Sample.e9) = Some Sample.e9)
    by reflexivity.
  assert (H : forall r, In r (expenses Sample.db) -> Expense._id r <> Sample.e9).
  { intros r [<-|[<-|[<-|[]]]]; discriminate. }
  assert (En : castObjectId Sample.of_bytes "e9" = None) by reflexivity.
  split; [repeat split; assumption|].
  split.
  - destruct (delete_expense_unknown_id Sample.of_bytes Sample.message
                (Oid.hex Sample.e9) Sample.ann Sample.db) as [H404 _].
    exact (H404 Sample.e9 Ec H).
  - destruct (delete_expense_unknown_id Sample.of_bytes Sample.message
                "e9" Sample.ann Sample.db) as [_ H500].
    exact (H500 En).
Defined.

(** The claim as first stated fails at the id "e9": no record of the sample
    store carries it, and yet delete does not answer 404.  The string is no
    ObjectId (it has neither 24 nor 12 characters), the query throws the
    CastError, and the handler answers 500, with any driver. *)
Lemma delete_expense_counterexample :
  (forall r, In r (expenses Sample.db) -> Oid.hex (Expense._id r) <> "e9")
  /\ (forall of_bytes message,
         delete_expense of_bytes message "e9" Sample.ann Sample.db
         = (mkResponse 500 (ErrorBody (message "e9")), Sample.db))
  /\ delete_expense Sample.of_bytes Sample.message "e9" Sample.ann Sample.db
     <> (mkResponse 404 (ErrorBody "Record not found"), Sample.db).
Proof.
  split; [intros r [<-|[<-|[<-|[]]]]; discriminate|].
  split; [reflexivity|discriminate].
Qed.

(** C10. The presence check of create-expense takes every falsy amount for
    a missing one: the request is answered 400 with the validation error
    and nothing is stored.  The number 0 is falsy, so a request whose amount
    is 0 is rejected this way whatever its other fields are. *)
Theorem create_expense_rejects_zero_amount
    (dayjs_isValid : Js.value -> bool)
    (Expense_create : CreateBody -> ObjectId -> list Expense.t -> string + Expense.t)
    (req_user : User.t) (db : Db) :
  (forall req_body,
      Js.truthy (c_amount req_body) = false ->
      create_expense dayjs_isValid Expense_create req_body req_user db
      = (mkResponse 400 (ErrorBody "Type, amount, and date are required."), db))
  /\ (forall ty category date description,
         create_expense dayjs_isValid Expense_create
           (mkCreateBody ty (Js.number 0) category date description) req_user db
         = (mkResponse 400 (ErrorBody "Type, amount, and date are required."), db)).
Proof.
  assert (H : forall req_body,
             Js.truthy (c_amount req_body) = false ->
             create_expense dayjs_isValid Expense_create req_body req_user db
             = (mkResponse 400 (ErrorBody "Type, amount, and date are required."), db)).
  { intros req_body Hf. unfold create_expense, Js.not. rewrite Hf.
    cbn [negb]. rewrite orb_true_r. reflexivity. }
  split; [exact H|].
  intros ty category date description. apply H. reflexivity.
Qed.

(** A request that differs only in its amount, 0 against 1: the first is
    rejected, the second is stored. *)
Lemma create_expense_rejects_zero_amount_witness :
  let create (b : CreateBody) (owner : ObjectId) (l : list Expense.t)
      : string + Expense.t :=
    inr (Expense.mk Sample.e4 owner "Expense" (Expense.numeric 0) None (Some Sample.mar15) None) in
  let request (n : float) :=
    mkCreateBody (Js.str "Expense") (Js.number n) Js.undefined
      (Js.str "2024-03-15") Js.undefined in
  Js.truthy (c_amount (request 0%float)) = false
  /\ create_expense (fun _ => true) create (request 0%float) Sample.ann Sample.db
     = (mkResponse 400 (ErrorBody "Type, amount, and date are required."), Sample.db)
  /\ status (fst (create_expense (fun _ => true) create (request 1%float) Sample.ann Sample.db))
     = 201.
Proof.
  intros create request.
  split; [reflexivity|].
  split; [|reflexivity].
  destruct (create_expense_rejects_zero_amount (fun _ => true) create
              Sample.ann Sample.db) as [H _].
  apply H. reflexivity.
Defined.

(** ** Text search *)

Lemma toLowerCase_toUpperCase c :
  Str.toLowerCase (Str.toUpperCase c) = Str.toLowerCase c.
Proof. destruct c as [[] [] [] [] [] [] [] []]; reflexivity. Qed.

Lemma toUpperCase_toLowerCase c :
  Str.toUpperCase (Str.toLowerCase c) = Str.toUpperCase c.
Proof. destruct c as [[] [] [] [] [] [] [] []]; reflexivity. Qed.

(** Folding to upper case, as the engine does, identifies the same
    characters as folding to lower case. *)
Lemma toUpperCase_eq_iff a b :
  Str.toUpperCase a = Str.toUpperCase b <-> Str.toLowerCase a = Str.toLowerCase b.
Proof.
  split; intros H.
  - rewrite <- (toLowerCase_toUpperCase a), <- (toLowerCase_toUpperCase b).
    now rewrite H.
  - rewrite <- (toUpperCase_toLowerCase a), <- (toUpperCase_toLowerCase b).
    now rewrite H.
Qed.

Lemma syntax_character_dot : RegExp.is_syntax_character "." = true.
Proof. reflexivity. Qed.

Lemma parse_plain_text q : plain_text q -> RegExp.parse q = Some (RegExp.literal q).
Proof.
  unfold plain_text. induction q as [|c q IH]; simpl; [reflexivity|].
  intros H. apply orb_false_iff in H. destruct H as [Hc Hq].
  destruct (Ascii.eqb_spec c ".") as [->|_].
  - rewrite syntax_character_dot in Hc. discriminate.
  - rewrite Hc, (IH Hq). reflexivity.
Qed.

Lemma match_here_literal re q s :
  RegExp.ignoreCase re = true ->
  (RegExp.match_here re (RegExp.literal q) s = true
   <-> exists middle after, s = middle ++ after /\ same_ignoring_case middle q).
Proof.
  intros Hre. unfold same_ignoring_case.
  revert s. induction q as [|c q IH]; intros s; simpl.
  - split; [|reflexivity]. intros _. exists EmptyString, s. split; reflexivity.
  - destruct s as [|d s].
    + split; [discriminate|]. intros (m & a & E & H).
      destruct m; simpl in *; discriminate.
    + unfold RegExp.Canonicalize. rewrite Hre.
      rewrite andb_true_iff, IH, Ascii.eqb_eq, toUpperCase_eq_iff. split.
      * intros (Hc & m & a & -> & H). exists (String d m), a. simpl.
        split; [reflexivity|]. now rewrite H, Hc.
      * intros (m & a & E & H). destruct m as [|d' m]; simpl in *; [discriminate|].
        injection E as <- ->. injection H as Hc H.
        split; [now rewrite Hc|]. exists m, a. split; [reflexivity|exact H].
Qed.

Lemma match_from_literal q s :
  RegExp.match_from (RegExp.mk (RegExp.literal q) true) s = true
  <-> contains_ignoring_case q s.
Proof.
  unfold contains_ignoring_case.
  induction s as [|d s IH].
  - cbn [RegExp.match_from RegExp.atoms]. rewrite orb_false_r, match_here_literal by reflexivity.
    split.
    + intros (m & a & E & H). exists EmptyString, m, a. split; assumption.
    + intros (b & m & a & E & H). destruct b; simpl in E; [|discriminate].
      exists m, a. split; assumption.
  - cbn [RegExp.match_from RegExp.atoms]. rewrite orb_true_iff, match_here_literal, IH by reflexivity.
    split.
    + intros [(m & a & E & H)|(b & m & a & E & H)].
      * exists EmptyString, m, a. split; assumption.
      * exists (String d b), m, a. split; [simpl; now rewrite E|assumption].
    + intros (b & m & a & E & H). destruct b as [|d' b]; simpl in E.
      * left. exists m, a. split; assumption.
      * injection E as <- ->. right. exists b, m, a. split; [reflexivity|assumption].
Qed.

Lemma forallb_append p a b :
  Str.forallb p (a ++ b) = Str.forallb p a && Str.forallb p b.
Proof.
  induction a as [|c a IH]; simpl; [reflexivity|].
  rewrite IH. apply andb_assoc.
Qed.

Lemma forallb_rev p s : Str.forallb p (Str.rev s) = Str.forallb p s.
Proof.
  induction s as [|c s IH]; simpl; [reflexivity|].
  rewrite forallb_append, IH. simpl. rewrite andb_true_r. apply andb_comm.
Qed.

Lemma trimStart_empty s :
  Str.trimStart s = EmptyString <-> Str.forallb Str.is_whitespace s = true.
Proof.
  induction s as [|c s IH]; simpl; [tauto|].
  destruct (Str.is_whitespace c); simpl; [exact IH|].
  split; discriminate.
Qed.

Lemma forallb_trimStart s :
  Str.forallb Str.is_whitespace (Str.trimStart s)
  = Str.forallb Str.is_whitespace s.
Proof.
  induction s as [|c s IH]; simpl; [reflexivity|].
  destruct (Str.is_whitespace c) eqn:E; simpl; [exact IH|].
  now rewrite E.
Qed.

Lemma rev_empty s : Str.rev s = EmptyString <-> s = EmptyString.
Proof.
  destruct s as [|c s]; simpl; [tauto|].
  split; [|discriminate].
  destruct (Str.rev s); simpl; discriminate.
Qed.

(** [trim] leaves nothing exactly of the texts that are all white space. *)
Lemma trim_empty s :
  Str.trim s = EmptyString <-> Str.forallb Str.is_whitespace s = true.
Proof.
  unfold Str.trim, Str.trimEnd.
  rewrite rev_empty, trimStart_empty, forallb_rev, forallb_trimStart.
  tauto.
Qed.

Lemma search_expenses_plain q db req_user :
  plain_text q -> not_blank q ->
  search_expenses (Some q) req_user db
  = Some (json (SearchBody ("Search results for " ++ dquote ++ q ++ dquote)
                  (List.length
                     (filter (or_regex (RegExp.mk (RegExp.literal q) true)) (expenses db)))
                  (filter (or_regex (RegExp.mk (RegExp.literal q) true)) (expenses db))),
          db).
Proof.
  intros Hp Hb. unfold search_expenses.
  assert (E1 : String.eqb q EmptyString = false).
  { destruct q; [discriminate Hb|reflexivity]. }
  assert (E2 : String.eqb (Str.trim q) EmptyString = false).
  { apply String.eqb_neq. intros H. apply trim_empty in H.
    unfold not_blank in Hb. congruence. }
  rewrite E1, E2. cbn [orb].
  unfold RegExp.make. rewrite (parse_plain_text q Hp). reflexivity.
Qed.

Lemma field_matches_literal q field :
  RegExp.field_matches (RegExp.mk (RegExp.literal q) true) field = true
  <-> field_contains q field.
Proof.
  destruct field as [s|]; simpl.
  - apply match_from_literal.
  - split; [discriminate|tauto].
Qed.

Lemma or_regex_literal q r :
  or_regex (RegExp.mk (RegExp.literal q) true) r = true <-> record_contains q r.
Proof.
  unfold or_regex, record_contains.
  rewrite !orb_true_iff, !field_matches_literal. tauto.
Qed.




(** C9.  The search runs over the whole expense collection with no
    condition on the owner: its answer does not depend on who asks, there
    are stores on which the results of an authenticated user include a
    record of another user, and two stores that agree on the user's own
    records can give the user different results. *)
Theorem search_expenses_not_owner_scoped :
  (forall query u1 u2 db, search_expenses query u1 db = search_expenses query u2 db)
  /\ (exists response r,
         search_expenses (Some "rent") Sample.ann Sample.db = Some (response, Sample.db)
         /\ In r (data_of response)
         /\ Expense.userId r <> User._id Sample.ann)
  /\ (exists db1 db2,
         find_by_user (User._id Sample.ann) (expenses db1)
         = find_by_user (User._id Sample.ann) (expenses db2)
         /\ option_map fst (search_expenses (Some "rent") Sample.ann db1)
            <> option_map fst (search_expenses (Some "rent") Sample.ann db2)).
Proof.
  split; [reflexivity|]. split.
  - eexists. exists Sample.rent. split; [reflexivity|].
    split; [left; reflexivity|discriminate].
  - exists Sample.db, (mkDb [Sample.salary; Sample.food] [Sample.ann; Sample.bob]).
    split; [reflexivity|]. discriminate.
Qed.

(** ** Register and login *)

Section UserProperties.

Variable bcrypt_hash : string -> string -> string.
Variable bcrypt_compare : string -> string -> bool.
Variable jwt_sign : ObjectId -> string -> string -> string.

Lemma findOne_email_None e l :
  findOne_email e l = None <-> ~ In e (List.map User.email l).
Proof.
  unfold findOne_email. induction l as [|u l IH]; simpl; [tauto|].
  destruct (String.eqb_spec (User.email u) e) as [E|E].
  - split; [discriminate|]. intros H. exfalso. apply H. now left.
  - rewrite IH. tauto.
Qed.

(** Registration keeps the emails of the collection well formed and
    distinct. *)
Lemma registered_emails db :
  registered bcrypt_hash db ->
  Forall (fun u => EmailRegex.test (User.email u) = true) (users db)
  /\ NoDup (List.map User.email (users db)).
Proof.
  induction 1 as [l|db req_body salt new_id _ [IHf IHn]|db l _ IH]; cbn.
  - split; constructor.
  - unfold register.
    destruct (Js.not_str (r_name req_body) || Js.not_str (r_email req_body)
              || Js.not_str (r_password req_body)); [now split|].
    destruct (EmailRegex.test (get (r_email req_body))) eqn:Et; cbn [negb];
      [|now split].
    destruct (findOne_email (get (r_email req_body)) (users db)) eqn:Ef;
      [now split|].
    cbn. split.
    + apply Forall_app. split; [exact IHf|]. constructor; [exact Et|constructor].
    + rewrite map_app. cbn.
      apply NoDup_app; [exact IHn | constructor; [intros []|constructor] |].
      intros e He [<-|[]]. apply findOne_email_None in Ef. contradiction.
  - exact IH.
Qed.

Lemma findOne_email_registered db user :
  registered bcrypt_hash db ->
  In user (users db) ->
  findOne_email (User.email user) (users db) = Some user.
Proof.
  intros Hr Hin. destruct (registered_emails db Hr) as [_ Hn].
  unfold findOne_email. revert Hn Hin.
  induction (users db) as [|u l IH]; cbn; [tauto|].
  intros Hn [->|Hin].
  - now rewrite String.eqb_refl.
  - inversion Hn as [|? ? Hu Hl]; subst.
    destruct (String.eqb_spec (User.email u) (User.email user)) as [E|E].
    + exfalso. apply Hu. rewrite E. apply in_map, Hin.
    + apply IH; assumption.
Qed.

Lemma login_unknown_email req_body db :
  findOne_email (get (l_email req_body)) (users db) = None ->
  fst (login bcrypt_compare jwt_sign req_body db)
  = mkResponse 400 (MessageBody "Email and password are required")
  \/ fst (login bcrypt_compare jwt_sign req_body db)
     = mkResponse 400 (MessageBody "Invalid email format")
  \/ fst (login bcrypt_compare jwt_sign req_body db)
     = mkResponse 404 (MessageBody "User not found").
Proof.
  intros Hf. unfold login.
  destruct (Js.not_str (l_email req_body) || Js.not_str (l_password req_body));
    [now left|].
  destruct (EmailRegex.test (get (l_email req_body))); cbn [negb];
    [|now right; left].
  rewrite Hf. now right; right.
Qed.

(** C7, as amended.  For every login request whose email belongs to a
    registered user and whose password is not empty and does not verify
    against the stored hash, login answers 400 with the credential error
    "Invalid password" and issues no token; this answer differs from the
    answer to every request whose email belongs to no user. *)
Theorem login_wrong_password (db : Db) (user : User.t) (password : string) :
  registered bcrypt_hash db ->
  In user (users db) ->
  password <> EmptyString ->
  bcrypt_compare password (User.password user) = false ->
  login bcrypt_compare jwt_sign
    (mkLoginRequest (Some (User.email user)) (Some password)) db
  = (mkResponse 400 (MessageBody "Invalid password"), db)
  /\ token_of (fst (login bcrypt_compare jwt_sign
                      (mkLoginRequest (Some (User.email user)) (Some password)) db))
     = None
  /\ (forall other,
         ~ In (get (l_email other)) (List.map User.email (users db)) ->
         fst (login bcrypt_compare jwt_sign other db)
         <> fst (login bcrypt_compare jwt_sign
                   (mkLoginRequest (Some (User.email user)) (Some password)) db)).
Proof.
  intros Hr Hin Hp Hc.
  assert (E : login bcrypt_compare jwt_sign
                (mkLoginRequest (Some (User.email user)) (Some password)) db
              = (mkResponse 400 (MessageBody "Invalid password"), db)).
  { unfold login. cbn [l_email l_password Js.not_str get].
    destruct (registered_emails db Hr) as [Hf _].
    rewrite Forall_forall in Hf. pose proof (Hf user Hin) as Ht.
    assert (Ee : String.eqb (User.email user) EmptyString = false).
    { destruct (User.email user); [discriminate Ht|reflexivity]. }
    assert (Ep : String.eqb password EmptyString = false).
    { now apply String.eqb_neq. }
    rewrite Ee, Ep, Ht. cbn [orb negb].
    rewrite (findOne_email_registered db user Hr Hin), Hc. reflexivity. }
  rewrite E. cbn [fst]. split; [reflexivity|]. split; [reflexivity|].
  intros other Ho. apply findOne_email_None in Ho.
  destruct (login_unknown_email other db Ho) as [H|[H|H]]; rewrite H; discriminate.
Qed.

End UserProperties.


Lemma login_wrong_password_witness :
  (registered Sample.hash Sample.registry
   /\ In Sample.ann (users Sample.registry)
   /\ "wrong" <> EmptyString
   /\ Sample.compare "wrong" (User.password Sample.ann) = false)
  /\ login Sample.compare Sample.sign
       (mkLoginRequest (Some "ann@example.com") (Some "wrong")) Sample.registry
     = (mkResponse 400 (MessageBody "Invalid password"), Sample.registry)
  /\ fst (login Sample.compare Sample.sign
            (mkLoginRequest (Some "bob@example.com") (Some "wrong")) Sample.registry)
     = mkResponse 404 (MessageBody "User not found").
Proof.
  assert (Hr : registered Sample.hash Sample.registry).
  { apply registered_more, registered_none. }
  assert (Hin : In Sample.ann (users Sample.registry)) by (left; reflexivity).
  assert (Hp : "wrong" <> EmptyString) by discriminate.
  assert (Hc : Sample.compare "wrong" (User.password Sample.ann) = false)
    by reflexivity.
  split; [repeat split; assumption|].
  split; [|reflexivity].
  destruct (login_wrong_password Sample.hash Sample.compare Sample.sign
              Sample.registry Sample.ann "wrong" Hr Hin Hp Hc) as [E _].
  exact E.
Defined.

(** With an empty password the presence check answers first: the request
    for Ann's registered email, whose empty password does not verify, gets
    the very answer of the request for an email nobody registered. *)
Lemma login_empty_password_counterexample :
  registered Sample.hash Sample.registry
  /\ In Sample.ann (users Sample.registry)
  /\ Sample.compare EmptyString (User.password Sample.ann) = false
  /\ findOne_email "bob@example.com" (users Sample.registry) = None
  /\ login Sample.compare Sample.sign
       (mkLoginRequest (Some "ann@example.com") (Some EmptyString)) Sample.registry
     = (mkResponse 400 (MessageBody "Email and password are required"),
        Sample.registry)
  /\ login Sample.compare Sample.sign
       (mkLoginRequest (Some "ann@example.com") (Some EmptyString)) Sample.registry
     = login Sample.compare Sample.sign
         (mkLoginRequest (Some "bob@example.com") (Some EmptyString)) Sample.registry.
Proof.
  split; [apply registered_more, registered_none|].
  split; [left; reflexivity|].
  repeat split.
Qed.

(** * Further properties of the routes *)

(** ** Totals and foreign types *)

Lemma sum_from_app acc ty (l1 l2 : list Expense.t) :
  sum_from acc ty (l1 ++ l2)%list = sum_from (sum_from acc ty l1) ty l2.
Proof.
  revert acc. induction l1 as [|r l1 IH]; intros acc; simpl; [reflexivity|].
  apply IH.
Qed.

(** X3.  A record whose type is neither Income nor Expense (for example
    one typed income, in lower case) changes no total, wherever it stands
    and whatever its amount. *)
Theorem calculateTotals_ignores_other_types (l1 l2 : list Expense.t) (r : Expense.t) :
  ~ counted_type r ->
  calculateTotals (l1 ++ r :: l2)%list = calculateTotals (l1 ++ l2)%list.
Proof.
  intros H. rewrite !calculateTotals_sum_of_type. unfold sum_of_type.
  rewrite !sum_from_app. simpl.
  unfold counted_type in H.
  destruct (string_dec (Expense.type r) "Income"); [tauto|].
  destruct (string_dec (Expense.type r) "Expense"); [tauto|].
  reflexivity.
Qed.

Lemma calculateTotals_ignores_other_types_witness :
  ~ counted_type (Sample.expense Sample.e7 "u1" "income" 50 "Gift" 0)
  /\ calculateTotals [Sample.salary; Sample.expense Sample.e7 "u1" "income" 50 "Gift" 0;
                      Sample.food]
     = calculateTotals [Sample.salary; Sample.food].
Proof.
  assert (H : ~ counted_type (Sample.expense Sample.e7 "u1" "income" 50 "Gift" 0)).
  { intros [H|H]; discriminate. }
  split; [exact H|].
  apply (calculateTotals_ignores_other_types [Sample.salary] [Sample.food] _ H).
Defined.

(** ** The time-window filter in calendar terms *)

(** The year and the month of an instant depend on its day only. *)
Lemma same_day_same_month a b :
  Dayjs.Day a = Dayjs.Day b ->
  Dayjs.YearFromTime a = Dayjs.YearFromTime b
  /\ Dayjs.MonthFromTime a = Dayjs.MonthFromTime b.
Proof.
  intros H. unfold Dayjs.MonthFromTime, Dayjs.DayWithinYear, Dayjs.YearFromTime.
  rewrite H. split; reflexivity.
Qed.

(** A record is dated within an interval when it has a valid date, and the
    date is one of the interval. *)
Lemma dated_within_iff (first last : Z) (P : Z -> Prop) (r : Expense.t) :
  (forall date, first <= date <= last <-> P date) ->
  (dated_within first last r
   <-> exists date, Expense.date r = Some date /\ P date).
Proof.
  intros H. unfold dated_within. destruct (Expense.date r) as [v|].
  - rewrite (H v). split.
    + intros Hv. exists v. auto.
    + intros (date & [= <-] & Hd). exact Hd.
  - split; [tauto|]. intros (date & E & _). discriminate.
Qed.

Lemma expenses_by_time_today_day now req_user db r :
  In r (data_of (fst (expenses_by_time (Some "today") now req_user db)))
  <-> In r (find_by_user (User._id req_user) (expenses db))
      /\ (Expense.date r = None
          \/ exists date,
              Expense.date r = Some date
              /\ Dayjs.Day date = Dayjs.Day (Dayjs.valueOf now)).
Proof.
  destruct (expenses_by_time_data (Some "today") now req_user db) as [_ H];
    [left; reflexivity|].
  rewrite (H r).
  rewrite (dated_within_iff _ _ _ r (window_today_same_day now)).
  reflexivity.
Qed.

Lemma expenses_by_time_month_month now req_user db r :
  ~ 0 <= Dayjs.y now <= 99 ->
  (In r (data_of (fst (expenses_by_time (Some "month") now req_user db)))
   <-> In r (find_by_user (User._id req_user) (expenses db))
       /\ (Expense.date r = None
           \/ exists date,
               Expense.date r = Some date
               /\ Dayjs.YearFromTime date = Dayjs.y now
               /\ Dayjs.MonthFromTime date = Dayjs.M now)).
Proof.
  intros Hy.
  destruct (expenses_by_time_data (Some "month") now req_user db) as [_ H];
    [right; left; reflexivity|].
  rewrite (H r).
  rewrite (dated_within_iff _ _ _ r
             (fun date => window_month_same_month now date Hy)).
  reflexivity.
Qed.

Lemma expenses_by_time_year_year now req_user db r :
  ~ 0 <= Dayjs.y now <= 99 ->
  (In r (data_of (fst (expenses_by_time (Some "year") now req_user db)))
   <-> In r (find_by_user (User._id req_user) (expenses db))
       /\ (Expense.date r = None
           \/ exists date,
               Expense.date r = Some date
               /\ Dayjs.YearFromTime date = Dayjs.y now)).
Proof.
  intros Hy.
  destruct (expenses_by_time_data (Some "year") now req_user db) as [_ H];
    [right; right; reflexivity|].
  rewrite (H r).
  rewrite (dated_within_iff _ _ _ r
             (fun date => window_year_same_year now date Hy)).
  reflexivity.
Qed.

(** X4.  With the token today the filter returns exactly the caller's
    records whose date is invalid (null, or a text dayjs cannot read) or
    falls on the calendar day of the current instant, the days being those
    of a clock at zero offset from UTC with no daylight saving. *)
Theorem expenses_by_time_today_same_day
    (now : Dayjs.t) (req_user : User.t) (db : Db) (r : Expense.t) :
  In r (data_of (fst (expenses_by_time (Some "today") now req_user db)))
  <-> In r (find_by_user (User._id req_user) (expenses db))
      /\ (Expense.date r = None
          \/ exists date,
              Expense.date r = Some date
              /\ Dayjs.Day date = Dayjs.Day (Dayjs.valueOf now)).
Proof.
  apply expenses_by_time_today_day.
Qed.

(** X5.  Outside the years 0 to 99, with the token month the filter returns
    exactly the caller's records whose date is invalid or falls in the
    current year and month, and with the token year exactly those whose date
    is invalid or falls in the current year, the months and years being
    those of a clock at zero offset from UTC with no daylight saving. *)
Theorem expenses_by_time_month_year_same_period
    (now : Dayjs.t) (req_user : User.t) (db : Db) (r : Expense.t) :
  ~ 0 <= Dayjs.y now <= 99 ->
  (In r (data_of (fst (expenses_by_time (Some "month") now req_user db)))
   <-> In r (find_by_user (User._id req_user) (expenses db))
       /\ (Expense.date r = None
           \/ exists date,
               Expense.date r = Some date
               /\ Dayjs.YearFromTime date = Dayjs.y now
               /\ Dayjs.MonthFromTime date = Dayjs.M now))
  /\ (In r (data_of (fst (expenses_by_time (Some "year") now req_user db)))
      <-> In r (find_by_user (User._id req_user) (expenses db))
          /\ (Expense.date r = None
              \/ exists date,
                  Expense.date r = Some date
                  /\ Dayjs.YearFromTime date = Dayjs.y now)).
Proof.
  intros Hy. split.
  - apply expenses_by_time_month_month, Hy.
  - apply expenses_by_time_year_year, Hy.
Qed.

Lemma expenses_by_time_month_year_same_period_witness :
  ~ 0 <= Dayjs.y Sample.now <= 99
  /\ In Sample.food
       (data_of (fst (expenses_by_time (Some "month") Sample.now Sample.ann Sample.db)))
  /\ In Sample.food
       (data_of (fst (expenses_by_time (Some "year") Sample.now Sample.ann Sample.db))).
Proof.
  assert (Hy : ~ 0 <= Dayjs.y Sample.now <= 99).
  { intros [_ H]. apply Z.leb_le in H. vm_compute in H. discriminate. }
  split; [exact Hy|].
  destruct (expenses_by_time_month_year_same_period Sample.now Sample.ann Sample.db
              Sample.food Hy) as [Hm Hyr].
  split.
  - apply Hm. split; [right; left; reflexivity|].
    right. exists Sample.mar14. split; [reflexivity|].
    split; vm_compute; reflexivity.
  - apply Hyr. split; [right; left; reflexivity|].
    right. exists Sample.mar14. split; [reflexivity|]. vm_compute; reflexivity.
Defined.

(** X6.  Outside the years 0 to 99 the three windows nest: every record
    returned for today is returned for month, and every record returned for
    month is returned for year. *)
Theorem expenses_by_time_windows_nest
    (now : Dayjs.t) (req_user : User.t) (db : Db) :
  ~ 0 <= Dayjs.y now <= 99 ->
  incl (data_of (fst (expenses_by_time (Some "today") now req_user db)))
       (data_of (fst (expenses_by_time (Some "month") now req_user db)))
  /\ incl (data_of (fst (expenses_by_time (Some "month") now req_user db)))
          (data_of (fst (expenses_by_time (Some "year") now req_user db))).
Proof.
  intros Hy.
  pose proof (expenses_by_time_today_day now req_user db) as Ht.
  pose proof (expenses_by_time_month_month now req_user db) as Hm.
  pose proof (expenses_by_time_year_year now req_user db) as Hyr.
  split; intros r Hr.
  - destruct (Ht r) as [Ht1 _]. destruct (Hm r Hy) as [_ Hm2].
    apply Hm2. destruct (Ht1 Hr) as [Hin [Hd|(date & E & Hd)]].
    + split; [exact Hin|]. left. exact Hd.
    + split; [exact Hin|]. right. exists date. split; [exact E|].
      apply (same_day_same_month _ _ Hd).
  - destruct (Hm r Hy) as [Hm1 _]. destruct (Hyr r Hy) as [_ Hy2].
    apply Hy2. destruct (Hm1 Hr) as [Hin [Hd|(date & E & Hyear & _)]].
    + split; [exact Hin|]. left. exact Hd.
    + split; [exact Hin|]. right. exists date. split; assumption.
Qed.

Lemma expenses_by_time_windows_nest_witness :
  ~ 0 <= Dayjs.y Sample.now <= 99
  /\ incl (data_of (fst (expenses_by_time (Some "today") Sample.now Sample.ann Sample.db)))
          (data_of (fst (expenses_by_time (Some "month") Sample.now Sample.ann Sample.db))).
Proof.
  assert (Hy : ~ 0 <= Dayjs.y Sample.now <= 99).
  { intros [_ H]. apply Z.leb_le in H. vm_compute in H. discriminate. }
  split; [exact Hy|].
  destruct (expenses_by_time_windows_nest Sample.now Sample.ann Sample.db Hy)
    as [H _].
  exact H.
Defined.

(** X7.  Outside the years 0 to 99, a record of the caller dated at the
    current instant is returned under every valid token. *)
Theorem expenses_by_time_keeps_record_dated_now
    (filter : option string) (now : Dayjs.t) (req_user : User.t) (db : Db)
    (r : Expense.t) :
  valid_token filter ->
  ~ 0 <= Dayjs.y now <= 99 ->
  In r (expenses db) ->
  Expense.userId r = User._id req_user ->
  Expense.date r = Some (Dayjs.valueOf now) ->
  In r (data_of (fst (expenses_by_time filter now req_user db))).
Proof.
  intros Hv Hy Hin Hu Hd.
  apply (expenses_by_time_data filter now req_user db Hv). split.
  - unfold find_by_user. apply filter_In. split; [exact Hin|].
    now apply String.eqb_eq.
  - right. unfold dated_within. rewrite Hd. apply window_contains_now, Hy.
Qed.

Lemma expenses_by_time_keeps_record_dated_now_witness :
  (valid_token (Some "month") /\ ~ 0 <= Dayjs.y Sample.now <= 99)
  /\ In (Sample.expense Sample.e8 "u1" "Expense" 10 "Tea" (Dayjs.valueOf Sample.now))
       (data_of (fst (expenses_by_time (Some "month") Sample.now Sample.ann
                        (mkDb [Sample.expense Sample.e8 "u1" "Expense" 10 "Tea"
                                 (Dayjs.valueOf Sample.now)] [Sample.ann])))).
Proof.
  assert (Hv : valid_token (Some "month")) by (right; left; reflexivity).
  assert (Hy : ~ 0 <= Dayjs.y Sample.now <= 99).
  { intros [_ H]. apply Z.leb_le in H. vm_compute in H. discriminate. }
  split; [split; assumption|].
  exact (expenses_by_time_keeps_record_dated_now (Some "month") Sample.now Sample.ann
           (mkDb [Sample.expense Sample.e8 "u1" "Expense" 10 "Tea"
                    (Dayjs.valueOf Sample.now)] [Sample.ann])
           (Sample.expense Sample.e8 "u1" "Expense" 10 "Tea" (Dayjs.valueOf Sample.now))
           Hv Hy (or_introl eq_refl) eq_refl eq_refl).
Defined.

(** X8.  Whatever the token, the time-window endpoint changes nothing in
    the store and returns only records of the store that the caller owns. *)
Theorem expenses_by_time_owner_scoped
    (filter : option string) (now : Dayjs.t) (req_user : User.t) (db : Db) :
  snd (expenses_by_time filter now req_user db) = db
  /\ forall r,
       In r (data_of (fst (expenses_by_time filter now req_user db))) ->
       In r (expenses db) /\ Expense.userId r = User._id req_user.
Proof.
  unfold expenses_by_time.
  destruct (includes validFilters filter); cbn [negb].
  - destruct (window filter now) as [startDate endDate].
    split; [reflexivity|]. cbn [fst data_of body json]. intros r Hr.
    apply filter_In in Hr. destruct Hr as [Hr _].
    unfold find_by_user in Hr. apply filter_In in Hr. destruct Hr as [Hin Hu].
    split; [exact Hin|]. now apply String.eqb_eq.
  - split; [reflexivity|]. intros r [].
Qed.

(** ** Create, read, update and delete as they compose *)

Lemma findById_app id (l1 l2 : list Expense.t) :
  findById id (l1 ++ l2)%list
  = match findById id l1 with
    | Some r => Some r
    | None => findById id l2
    end.
Proof.
  unfold findById. induction l1 as [|r l1 IH]; simpl; [reflexivity|].
  destruct (Oid.eqb (Expense._id r) id); [reflexivity|exact IH].
Qed.

Lemma findById_Some id l r :
  findById id l = Some r -> In r l /\ Expense._id r = id.
Proof.
  unfold findById. intros H. apply find_some in H.
  destruct H as [Hin He]. split; [exact Hin|].
  now destruct (Oid_eqb_spec (Expense._id r) id).
Qed.

Lemma findById_unique (l : list Expense.t) (r : Expense.t) :
  NoDup (List.map Expense._id l) -> In r l -> findById (Expense._id r) l = Some r.
Proof.
  unfold findById. induction l as [|x l IH]; simpl; [tauto|].
  intros Hn [->|Hin].
  - now rewrite Oid_eqb_refl.
  - inversion Hn as [|? ? Hx Hl]; subst.
    destruct (Oid_eqb_spec (Expense._id x) (Expense._id r)) as [E|E].
    + exfalso. apply Hx. rewrite E. now apply in_map.
    + now apply IH.
Qed.

Lemma findByIdAndUpdate_findById id f l u l' :
  (forall r, Expense._id (f r) = Expense._id r) ->
  findByIdAndUpdate id f l = Some (u, l') -> findById id l' = Some u.
Proof.
  intros Hf. unfold findById. revert l'.
  induction l as [|r l IH]; intros l'; simpl; [discriminate|].
  destruct (Oid_eqb_spec (Expense._id r) id) as [E|E].
  - intros [= <- <-]. simpl. rewrite Hf, E, Oid_eqb_refl; reflexivity.
  - destruct (findByIdAndUpdate id f l) as [[u' l'']|]; [|discriminate].
    intros [= <- <-]. simpl.
    destruct (Oid_eqb_spec (Expense._id r) id); [contradiction|].
    now apply IH.
Qed.

Lemma findByIdAndDelete_first id l d l' :
  findByIdAndDelete id l = Some (d, l') ->
  exists before after,
    l = (before ++ d :: after)%list /\ l' = (before ++ after)%list
    /\ Expense._id d = id
    /\ forall r, In r before -> Expense._id r <> id.
Proof.
  revert l'. induction l as [|r l IH]; intros l'; simpl; [discriminate|].
  destruct (Oid_eqb_spec (Expense._id r) id) as [E|E].
  - intros [= <- <-]. exists [], l. repeat split; auto.
  - destruct (findByIdAndDelete id l) as [[d' l'']|]; [|discriminate].
    intros [= <- <-]. destruct (IH l'' eq_refl) as (b & a & -> & -> & Hd & Hb).
    exists (r :: b), a. repeat split; auto.
    intros r' [<-|Hin]; auto.
Qed.

Lemma create_expense_cases
    (dayjs_isValid : Js.value -> bool)
    (Expense_create : CreateBody -> ObjectId -> list Expense.t -> string + Expense.t)
    (req_body : CreateBody) (req_user : User.t) (db : Db) :
  (exists newRecord,
      Js.truthy (c_type req_body) = true
      /\ Js.truthy (c_amount req_body) = true
      /\ Js.truthy (c_date req_body) = true
      /\ dayjs_isValid (c_date req_body) = true
      /\ Expense_create req_body (User._id req_user) (expenses db) = inr newRecord
      /\ create_expense dayjs_isValid Expense_create req_body req_user db
         = (mkResponse 201
              (ChangedBody "Expense added successfully" newRecord
                 (calculateTotals
                    (find_by_user (User._id req_user)
                       (expenses db ++ [newRecord])))),
            mkDb (expenses db ++ [newRecord]) (users db)))
  \/ ((status (fst (create_expense dayjs_isValid Expense_create req_body req_user db))
       = 400
       \/ status (fst (create_expense dayjs_isValid Expense_create req_body req_user db))
          = 500)
      /\ snd (create_expense dayjs_isValid Expense_create req_body req_user db) = db).
Proof.
  unfold create_expense, Js.not.
  destruct (Js.truthy (c_type req_body)); cbn [negb orb]; [|right; split; auto].
  destruct (Js.truthy (c_amount req_body)); cbn [negb orb]; [|right; split; auto].
  destruct (Js.truthy (c_date req_body)); cbn [negb orb]; [|right; split; auto].
  destruct (dayjs_isValid (c_date req_body)); cbn [negb]; [|right; split; auto].
  destruct (Expense_create req_body (User._id req_user) (expenses db)) as [m|r];
    [right; split; auto|].
  left. exists r. repeat split.
Qed.

(** X9.  create-expense either stores exactly one record, the one
    [Expense.create] yields, at the end of the collection and answers 201
    with the totals of the owner's records, which requires a truthy type,
    amount and date and a valid date; or it answers 400 or 500 and leaves
    the store as it was. *)
Theorem create_expense_outcome
    (dayjs_isValid : Js.value -> bool)
    (Expense_create : CreateBody -> ObjectId -> list Expense.t -> string + Expense.t)
    (req_body : CreateBody) (req_user : User.t) (db : Db) :
  (exists newRecord,
      Js.truthy (c_type req_body) = true
      /\ Js.truthy (c_amount req_body) = true
      /\ Js.truthy (c_date req_body) = true
      /\ dayjs_isValid (c_date req_body) = true
      /\ Expense_create req_body (User._id req_user) (expenses db) = inr newRecord
      /\ create_expense dayjs_isValid Expense_create req_body req_user db
         = (mkResponse 201
              (ChangedBody "Expense added successfully" newRecord
                 (calculateTotals
                    (find_by_user (User._id req_user)
                       (expenses db ++ [newRecord])))),
            mkDb (expenses db ++ [newRecord]) (users db)))
  \/ ((status (fst (create_expense dayjs_isValid Expense_create req_body req_user db))
       = 400
       \/ status (fst (create_expense dayjs_isValid Expense_create req_body req_user db))
          = 500)
      /\ snd (create_expense dayjs_isValid Expense_create req_body req_user db) = db).
Proof.
  apply create_expense_cases.
Qed.

(** X10.  After a create that answers 201, all-expenses for the same user on
    the new store reports the totals the create answered with, and when the
    new record belongs to the user it is the last of the list. *)
Theorem create_expense_then_all_expenses
    (dayjs_isValid : Js.value -> bool)
    (Expense_create : CreateBody -> ObjectId -> list Expense.t -> string + Expense.t)
    (req_body : CreateBody) (req_user : User.t) (db : Db) :
  status (fst (create_expense dayjs_isValid Expense_create req_body req_user db)) = 201 ->
  exists newRecord totals data,
    body (fst (create_expense dayjs_isValid Expense_create req_body req_user db))
    = ChangedBody "Expense added successfully" newRecord totals
    /\ fst (all_expenses req_user
              (snd (create_expense dayjs_isValid Expense_create req_body req_user db)))
       = json (AllBody "All expenses fetched successfully" totals data)
    /\ (Expense.userId newRecord = User._id req_user ->
        exists earlier, data = (earlier ++ [newRecord])%list).
Proof.
  destruct (create_expense_cases dayjs_isValid Expense_create req_body req_user db)
    as [(r & _ & _ & _ & _ & _ & E)|[[E|E] _]]; rewrite E; try discriminate.
  intros _. cbn [fst snd body].
  exists r, (calculateTotals (find_by_user (User._id req_user) (expenses db ++ [r]))),
    (find_by_user (User._id req_user) (expenses db ++ [r])).
  split; [reflexivity|]. split; [reflexivity|].
  intros Hu. exists (find_by_user (User._id req_user) (expenses db)).
  unfold find_by_user. rewrite filter_app. cbn [filter].
  rewrite Hu, String.eqb_refl. reflexivity.
Qed.

Lemma create_expense_then_all_expenses_witness :
  status (fst (create_expense Sample.isValid Sample.create Sample.request
                 Sample.ann Sample.db)) = 201
  /\ exists newRecord data,
       fst (all_expenses Sample.ann
              (snd (create_expense Sample.isValid Sample.create Sample.request
                      Sample.ann Sample.db)))
       = json (AllBody "All expenses fetched successfully"
                 (mkTotals 3000 160 2840) data)
       /\ body (fst (create_expense Sample.isValid Sample.create Sample.request
                       Sample.ann Sample.db))
          = ChangedBody "Expense added successfully" newRecord
              (mkTotals 3000 160 2840).
Proof.
  assert (H : status (fst (create_expense Sample.isValid Sample.create
                             Sample.request Sample.ann Sample.db)) = 201)
    by reflexivity.
  split; [exact H|].
  destruct (create_expense_then_all_expenses Sample.isValid Sample.create
              Sample.request Sample.ann Sample.db H)
    as (r & t & data & Hb & Ha & _).
  exists r, data.
  assert (Et : t = mkTotals 3000 160 2840).
  { cbv in Hb. injection Hb as _ Ht. symmetry. exact Ht. }
  rewrite Ha, Hb, Et. split; reflexivity.
Defined.

Section ExpenseByIdFlows.

Variable of_bytes : string -> option Oid.t.
Variable message : string -> string.

(** X11.  Round trip: when the id of the created record is new to the store,
    reading that id back returns the created record, for any reader. *)
Theorem create_expense_then_get_expense
    (dayjs_isValid : Js.value -> bool)
    (Expense_create : CreateBody -> ObjectId -> list Expense.t -> string + Expense.t)
    (req_body : CreateBody) (req_user reader : User.t) (db : Db)
    (newRecord : Expense.t) :
  Expense_create req_body (User._id req_user) (expenses db) = inr newRecord ->
  status (fst (create_expense dayjs_isValid Expense_create req_body req_user db)) = 201 ->
  (forall r, In r (expenses db) -> Expense._id r <> Expense._id newRecord) ->
  get_expense of_bytes message (Oid.hex (Expense._id newRecord)) reader
    (snd (create_expense dayjs_isValid Expense_create req_body req_user db))
  = (json (RecordBody newRecord),
     snd (create_expense dayjs_isValid Expense_create req_body req_user db)).
Proof.
  intros Hc Hs Hfresh.
  destruct (create_expense_cases dayjs_isValid Expense_create req_body req_user db)
    as [(r & _ & _ & _ & _ & Hc' & E)|[[E|E] _]];
    [|rewrite E in Hs; discriminate..].
  rewrite Hc in Hc'. injection Hc' as <-.
  rewrite E. cbn [snd]. unfold get_expense, castObjectId.
  rewrite Oid_cast_hex. cbn [expenses].
  rewrite findById_app, (findById_absent _ _ Hfresh).
  unfold findById. cbn [find]. rewrite Oid_eqb_refl. reflexivity.
Qed.

(** X12.  Read-one checks no owner: with distinct ids, any user reading the
    id of any stored record gets that record, and the store is unchanged. *)
Theorem get_expense_any_reader (r : Expense.t) (reader : User.t) (db : Db) :
  unique_ids db ->
  In r (expenses db) ->
  get_expense of_bytes message (Oid.hex (Expense._id r)) reader db
  = (json (RecordBody r), db).
Proof.
  intros Hn Hin. unfold get_expense, castObjectId. rewrite Oid_cast_hex.
  rewrite (findById_unique _ _ Hn Hin). reflexivity.
Qed.

(** X13.  For an id that the store casts to an ObjectId which no record
    carries, read-one and update both answer 404, record not found; for an
    id the cast refuses, both answer 500 with the message of the CastError;
    either way the store is unchanged. *)
Theorem get_update_unknown_id
    (id : string) (req_body : UpdateBody) (req_user : User.t) (db : Db) :
  (forall oid,
      castObjectId of_bytes id = Some oid ->
      (forall r, In r (expenses db) -> Expense._id r <> oid) ->
      get_expense of_bytes message id req_user db
      = (mkResponse 404 (ErrorBody "Record not found"), db)
      /\ update_expense of_bytes message id req_body req_user db
         = (mkResponse 404 (ErrorBody "Record not found"), db))
  /\ (castObjectId of_bytes id = None ->
      get_expense of_bytes message id req_user db
      = (mkResponse 500 (ErrorBody (message id)), db)
      /\ update_expense of_bytes message id req_body req_user db
         = (mkResponse 500 (ErrorBody (message id)), db)).
Proof.
  split.
  - intros oid Ec H. pose proof (findById_absent oid (expenses db) H) as E.
    split.
    + unfold get_expense. rewrite Ec, E. reflexivity.
    + unfold update_expense. rewrite Ec.
      apply (findByIdAndUpdate_None oid (apply_update req_body)) in E.
      rewrite E. reflexivity.
  - intros Ec. split.
    + unfold get_expense. rewrite Ec. reflexivity.
    + unfold update_expense. rewrite Ec. reflexivity.
Qed.

(** X14.  After an update that answers 200, reading the id back returns the
    updated record of the answer, for any reader, and the ids of the
    collection are the same, in the same order. *)
Theorem update_expense_then_get_expense
    (id : string) (req_body : UpdateBody) (req_user reader : User.t) (db : Db) :
  status (fst (update_expense of_bytes message id req_body req_user db)) = 200 ->
  exists updatedRecord totals,
    body (fst (update_expense of_bytes message id req_body req_user db))
    = ChangedBody "Expense updated successfully" updatedRecord totals
    /\ get_expense of_bytes message id reader
         (snd (update_expense of_bytes message id req_body req_user db))
       = (json (RecordBody updatedRecord),
          snd (update_expense of_bytes message id req_body req_user db))
    /\ List.map Expense._id
         (expenses (snd (update_expense of_bytes message id req_body req_user db)))
       = List.map Expense._id (expenses db).
Proof.
  unfold update_expense, get_expense.
  destruct (castObjectId of_bytes id) as [oid|]; [|discriminate].
  destruct (findByIdAndUpdate oid (apply_update req_body) (expenses db))
    as [[u stored]|] eqn:E; cbn [fst snd status]; [|discriminate].
  intros _. exists u, (calculateTotals stored).
  split; [reflexivity|]. split.
  - cbn [expenses with_expenses].
    rewrite (findByIdAndUpdate_findById oid (apply_update req_body) _ _ _
               (fun r => eq_refl) E).
    reflexivity.
  - destruct (findByIdAndUpdate_Some _ _ _ _ _ E) as (b & r & a & _ & -> & H1 & H2).
    cbn [expenses with_expenses]. rewrite H1, H2, !map_app. reflexivity.
Qed.

Lemma delete_expense_first_match
    (id : string) (req_user : User.t) (db : Db) :
  status (fst (delete_expense of_bytes message id req_user db)) = 200 ->
  exists before deletedRecord after,
    expenses db = (before ++ deletedRecord :: after)%list
    /\ castObjectId of_bytes id = Some (Expense._id deletedRecord)
    /\ (forall r, In r before -> Expense._id r <> Expense._id deletedRecord)
    /\ delete_expense of_bytes message id req_user db
       = (json (ChangedBody "Expense deleted successfully" deletedRecord
                  (calculateTotals (before ++ after)%list)),
          mkDb (before ++ after)%list (users db)).
Proof.
  unfold delete_expense.
  destruct (castObjectId of_bytes id) as [oid|]; [|discriminate].
  destruct (findByIdAndDelete oid (expenses db)) as [[d stored]|] eqn:E;
    cbn [fst status]; [|discriminate].
  intros _. destruct (findByIdAndDelete_first _ _ _ _ E) as (b & a & H1 & H2 & Hd & Hb).
  exists b, d, a. rewrite H2, Hd. repeat split; auto.
Qed.

(** X15.  A delete that answers 200 removes exactly one record, the first
    that carries the id of the request, returns it, keeps every other record
    in order, and computes its totals over what remains. *)
Theorem delete_expense_removes_one
    (id : string) (req_user : User.t) (db : Db) :
  status (fst (delete_expense of_bytes message id req_user db)) = 200 ->
  exists before deletedRecord after,
    expenses db = (before ++ deletedRecord :: after)%list
    /\ castObjectId of_bytes id = Some (Expense._id deletedRecord)
    /\ (forall r, In r before -> Expense._id r <> Expense._id deletedRecord)
    /\ delete_expense of_bytes message id req_user db
       = (json (ChangedBody "Expense deleted successfully" deletedRecord
                  (calculateTotals (before ++ after)%list)),
          mkDb (before ++ after)%list (users db)).
Proof.
  apply delete_expense_first_match.
Qed.

Lemma NoDup_ids_remove (before after : list Expense.t) (d : Expense.t) :
  NoDup (List.map Expense._id (before ++ d :: after)%list) ->
  forall r, In r (before ++ after)%list -> Expense._id r <> Expense._id d.
Proof.
  rewrite map_app. cbn [List.map]. intros Hn r Hin E.
  apply NoDup_remove_2 in Hn. apply Hn. rewrite <- E, <- map_app.
  now apply in_map.
Qed.

(** X16.  With distinct ids, after a delete that answers 200 the id is gone:
    reading it and deleting it again both answer 404 and change nothing. *)
Theorem delete_expense_then_gone
    (id : string) (req_user reader : User.t) (db : Db) :
  unique_ids db ->
  status (fst (delete_expense of_bytes message id req_user db)) = 200 ->
  get_expense of_bytes message id reader
    (snd (delete_expense of_bytes message id req_user db))
  = (mkResponse 404 (ErrorBody "Record not found"),
     snd (delete_expense of_bytes message id req_user db))
  /\ delete_expense of_bytes message id reader
       (snd (delete_expense of_bytes message id req_user db))
     = (mkResponse 404 (ErrorBody "Record not found"),
        snd (delete_expense of_bytes message id req_user db)).
Proof.
  intros Hn Hs.
  destruct (delete_expense_first_match id req_user db Hs)
    as (b & d & a & H1 & Hd & _ & E).
  rewrite E. cbn [snd].
  unfold unique_ids in Hn. rewrite H1 in Hn.
  pose proof (NoDup_ids_remove b a d Hn) as Habs.
  pose proof (findById_absent (Expense._id d) (b ++ a)%list Habs) as Ef.
  split.
  - unfold get_expense. rewrite Hd. cbn [expenses]. rewrite Ef. reflexivity.
  - unfold delete_expense. rewrite Hd. cbn [expenses].
    apply findByIdAndDelete_None in Ef. rewrite Ef. reflexivity.
Qed.

End ExpenseByIdFlows.

Lemma create_expense_then_get_expense_witness :
  (Sample.create Sample.request (User._id Sample.ann) (expenses Sample.db)
   = inr (Expense.mk Sample.e4 "u1" "Expense" (Expense.numeric 40) None
            (Some Sample.mar15) None)
   /\ status (fst (create_expense Sample.isValid Sample.create Sample.request
                     Sample.ann Sample.db)) = 201
   /\ forall r, In r (expenses Sample.db) -> Expense._id r <> Sample.e4)
  /\ fst (get_expense Sample.of_bytes Sample.message (Oid.hex Sample.e4) Sample.bob
            (snd (create_expense Sample.isValid Sample.create Sample.request
                    Sample.ann Sample.db)))
     = json (RecordBody
               (Expense.mk Sample.e4 "u1" "Expense" (Expense.numeric 40) None
                  (Some Sample.mar15) None)).
Proof.
  assert (Hf : forall r, In r (expenses Sample.db) -> Expense._id r <> Sample.e4).
  { intros r [<-|[<-|[<-|[]]]]; discriminate. }
  split; [split; [reflexivity|split; [reflexivity|exact Hf]]|].
  pose proof (create_expense_then_get_expense Sample.of_bytes Sample.message
                Sample.isValid Sample.create
                Sample.request Sample.ann Sample.bob Sample.db
                (Expense.mk Sample.e4 "u1" "Expense" (Expense.numeric 40) None
                   (Some Sample.mar15) None) eq_refl eq_refl Hf) as E.
  apply (f_equal fst) in E. exact E.
Defined.

Lemma get_expense_any_reader_witness :
  (unique_ids Sample.db /\ In Sample.rent (expenses Sample.db))
  /\ Expense.userId Sample.rent <> User._id Sample.ann
  /\ get_expense Sample.of_bytes Sample.message (Oid.hex Sample.e3) Sample.ann
       Sample.db
     = (json (RecordBody Sample.rent), Sample.db).
Proof.
  assert (Hn : unique_ids Sample.db).
  { unfold unique_ids. cbn.
    repeat (constructor; [cbn; intuition discriminate|]).
    constructor. }
  assert (Hin : In Sample.rent (expenses Sample.db)) by (right; right; left; reflexivity).
  split; [split; assumption|]. split; [discriminate|].
  apply (get_expense_any_reader Sample.of_bytes Sample.message Sample.rent
           Sample.ann Sample.db Hn Hin).
Defined.

(** The id of no sample record, in its hexadecimal form, is answered 404 by
    both; the string "e9", which is no ObjectId, is answered 500 by both. *)
Lemma get_update_unknown_id_witness :
  (castObjectId Sample.of_bytes (Oid.hex Sample.e9) = Some Sample.e9
   /\ (forall r, In r (expenses Sample.db) -> Expense._id r <> Sample.e9)
   /\ castObjectId Sample.of_bytes "e9" = None)
  /\ (get_expense Sample.of_bytes Sample.message (Oid.hex Sample.e9) Sample.ann
        Sample.db
      = (mkResponse 404 (ErrorBody "Record not found"), Sample.db)
      /\ update_expense Sample.of_bytes Sample.message (Oid.hex Sample.e9)
           (mkUpdateBody None (Some (Expense.numeric 1)) None None None)
           Sample.ann Sample.db
         = (mkResponse 404 (ErrorBody "Record not found"), Sample.db))
  /\ (get_expense Sample.of_bytes Sample.message "e9" Sample.ann Sample.db
      = (mkResponse 500 (ErrorBody (Sample.message "e9")), Sample.db)
      /\ update_expense Sample.of_bytes Sample.message "e9"
           (mkUpdateBody None (Some (Expense.numeric 1)) None None None)
           Sample.ann Sample.db
         = (mkResponse 500 (ErrorBody (Sample.message "e9")), Sample.db)).
Proof.
  assert (Ec : castObjectId Sample.of_bytes (Oid.hex Sample.e9) = Some Sample.e9)
    by reflexivity.
  assert (H : forall r, In r (expenses Sample.db) -> Expense._id r <> Sample.e9).
  { intros r [<-|[<-|[<-|[]]]]; discriminate. }
  assert (En : castObjectId Sample.of_bytes "e9" = None) by reflexivity.
  split; [repeat split; assumption|].
  split.
  - destruct (get_update_unknown_id Sample.of_bytes Sample.message
                (Oid.hex Sample.e9)
                (mkUpdateBody None (Some (Expense.numeric 1)) None None None)
                Sample.ann Sample.db) as [H404 _].
    exact (H404 Sample.e9 Ec H).
  - destruct (get_update_unknown_id Sample.of_bytes Sample.message "e9"
                (mkUpdateBody None (Some (Expense.numeric 1)) None None None)
                Sample.ann Sample.db) as [_ H500].
    exact (H500 En).
Defined.

Lemma update_expense_then_get_expense_witness :
  status (fst (update_expense Sample.of_bytes Sample.message (Oid.hex Sample.e2)
                 (mkUpdateBody None None (Some "Food") None None)
                 Sample.ann Sample.db)) = 200
  /\ fst (get_expense Sample.of_bytes Sample.message (Oid.hex Sample.e2) Sample.bob
            (snd (update_expense Sample.of_bytes Sample.message (Oid.hex Sample.e2)
                    (mkUpdateBody None None (Some "Food") None None)
                    Sample.ann Sample.db)))
     = json (RecordBody (Sample.expense Sample.e2 "u1" "Expense" 120 "Food" Sample.mar14)).
Proof.
  assert (H : status (fst (update_expense Sample.of_bytes Sample.message
                             (Oid.hex Sample.e2)
                             (mkUpdateBody None None (Some "Food") None None)
                             Sample.ann Sample.db)) = 200) by reflexivity.
  split; [exact H|].
  destruct (update_expense_then_get_expense Sample.of_bytes Sample.message
              (Oid.hex Sample.e2)
              (mkUpdateBody None None (Some "Food") None None)
              Sample.ann Sample.bob Sample.db H) as (u & t & Hb & Hg & _).
  rewrite Hg. cbn [fst]. cbv in Hb. injection Hb as Hu _. rewrite <- Hu. reflexivity.
Defined.

Lemma delete_expense_removes_one_witness :
  status (fst (delete_expense Sample.of_bytes Sample.message (Oid.hex Sample.e2)
                 Sample.bob Sample.db)) = 200
  /\ exists before deletedRecord after,
       expenses Sample.db = (before ++ deletedRecord :: after)%list
       /\ castObjectId Sample.of_bytes (Oid.hex Sample.e2)
          = Some (Expense._id deletedRecord)
       /\ (forall r, In r before -> Expense._id r <> Expense._id deletedRecord)
       /\ delete_expense Sample.of_bytes Sample.message (Oid.hex Sample.e2)
            Sample.bob Sample.db
          = (json (ChangedBody "Expense deleted successfully" deletedRecord
                     (calculateTotals (before ++ after)%list)),
             mkDb (before ++ after)%list (users Sample.db)).
Proof.
  assert (H : status (fst (delete_expense Sample.of_bytes Sample.message
                             (Oid.hex Sample.e2) Sample.bob Sample.db)) = 200)
    by reflexivity.
  split; [exact H|].
  exact (delete_expense_removes_one Sample.of_bytes Sample.message
           (Oid.hex Sample.e2) Sample.bob Sample.db H).
Defined.

Lemma delete_expense_then_gone_witness :
  (unique_ids Sample.db
   /\ status (fst (delete_expense Sample.of_bytes Sample.message (Oid.hex Sample.e2)
                     Sample.ann Sample.db)) = 200)
  /\ fst (get_expense Sample.of_bytes Sample.message (Oid.hex Sample.e2) Sample.ann
            (snd (delete_expense Sample.of_bytes Sample.message (Oid.hex Sample.e2)
                    Sample.ann Sample.db)))
     = mkResponse 404 (ErrorBody "Record not found")
  /\ fst (delete_expense Sample.of_bytes Sample.message (Oid.hex Sample.e2) Sample.ann
            (snd (delete_expense Sample.of_bytes Sample.message (Oid.hex Sample.e2)
                    Sample.ann Sample.db)))
     = mkResponse 404 (ErrorBody "Record not found").
Proof.
  assert (Hn : unique_ids Sample.db).
  { unfold unique_ids. cbn.
    repeat (constructor; [cbn; intuition discriminate|]).
    constructor. }
  assert (H : status (fst (delete_expense Sample.of_bytes Sample.message
                             (Oid.hex Sample.e2) Sample.ann Sample.db)) = 200)
    by reflexivity.
  split; [split; assumption|].
  destruct (delete_expense_then_gone Sample.of_bytes Sample.message
              (Oid.hex Sample.e2) Sample.ann Sample.ann Sample.db Hn H)
    as [Hg Hd].
  rewrite Hg, Hd. split; reflexivity.
Defined.

(** X17.  all-expenses is scoped to the owner: a record of another user in
    the store changes nothing in the answer, and the list holds exactly the
    caller's records. *)
Theorem all_expenses_owner_only
    (req_user : User.t) (l1 l2 : list Expense.t) (other : Expense.t)
    (us : list User.t) :
  Expense.userId other <> User._id req_user ->
  fst (all_expenses req_user (mkDb (l1 ++ other :: l2)%list us))
  = fst (all_expenses req_user (mkDb (l1 ++ l2)%list us))
  /\ (forall r,
        In r (data_of (fst (all_expenses req_user (mkDb (l1 ++ other :: l2)%list us))))
        <-> In r (l1 ++ l2)%list /\ Expense.userId r = User._id req_user).
Proof.
  intros Ho.
  assert (E : find_by_user (User._id req_user) (l1 ++ other :: l2)%list
              = find_by_user (User._id req_user) (l1 ++ l2)%list).
  { unfold find_by_user. rewrite !filter_app. cbn [filter].
    destruct (String.eqb_spec (Expense.userId other) (User._id req_user));
      [contradiction|reflexivity]. }
  unfold all_expenses. cbn [fst expenses data_of body json]. rewrite E.
  split; [reflexivity|].
  intros r. unfold find_by_user. rewrite filter_In, String.eqb_eq. reflexivity.
Qed.

Lemma all_expenses_owner_only_witness :
  Expense.userId Sample.rent <> User._id Sample.ann
  /\ fst (all_expenses Sample.ann Sample.db)
     = json (AllBody "All expenses fetched successfully" (mkTotals 3000 120 2880)
               [Sample.salary; Sample.food]).
Proof.
  assert (H : Expense.userId Sample.rent <> User._id Sample.ann) by discriminate.
  split; [exact H|].
  destruct (all_expenses_owner_only Sample.ann [Sample.salary; Sample.food] []
              Sample.rent [Sample.ann; Sample.bob] H) as [E _].
  change (mkDb ([Sample.salary; Sample.food] ++ [Sample.rent]) [Sample.ann; Sample.bob])
    with Sample.db in E.
  rewrite E. reflexivity.
Defined.

(** ** Text search: blank queries, case of the query, narrowing *)

(** X18.  A query that is missing, empty or made of white space only is
    answered 400, query parameter required, and the store is unchanged. *)
Theorem search_expenses_blank_query
    (query : option string) (req_user : User.t) (db : Db) :
  match query with
  | Some q => blank q
  | None => True
  end ->
  search_expenses query req_user db
  = Some (mkResponse 400 (ErrorBody "Query parameter is required"), db).
Proof.
  destruct query as [q|]; [|reflexivity].
  intros Hb. unfold search_expenses.
  apply trim_empty in Hb. rewrite Hb. cbn. rewrite orb_true_r. reflexivity.
Qed.

(** A tab, a no-break space and a space. *)
Lemma search_expenses_blank_query_witness :
  blank (String (ascii_of_nat 9) (String (ascii_of_nat 160) " "))
  /\ search_expenses (Some (String (ascii_of_nat 9) (String (ascii_of_nat 160) " ")))
       Sample.ann Sample.db
     = Some (mkResponse 400 (ErrorBody "Query parameter is required"), Sample.db).
Proof.
  assert (H : blank (String (ascii_of_nat 9) (String (ascii_of_nat 160) " ")))
    by reflexivity.
  split; [exact H|].
  exact (search_expenses_blank_query
           (Some (String (ascii_of_nat 9) (String (ascii_of_nat 160) " ")))
           Sample.ann Sample.db H).
Defined.

Lemma contains_same_query q1 q2 s :
  same_ignoring_case q1 q2 ->
  contains_ignoring_case q1 s -> contains_ignoring_case q2 s.
Proof.
  unfold contains_ignoring_case, same_ignoring_case.
  intros H (b & m & a & E & Hm). exists b, m, a. split; [exact E|congruence].
Qed.

Lemma record_contains_same_query q1 q2 r :
  same_ignoring_case q1 q2 -> record_contains q1 r -> record_contains q2 r.
Proof.
  intros H. unfold record_contains, field_contains.
  pose proof (contains_same_query q1 q2) as Hc.
  destruct (Expense.category r), (Expense.description r);
    intros [?|[?|?]]; eauto; try contradiction.
Qed.

Lemma or_regex_literal_ext q1 q2 :
  (forall r, record_contains q1 r -> record_contains q2 r) ->
  forall r, or_regex (RegExp.mk (RegExp.literal q1) true) r = true ->
            or_regex (RegExp.mk (RegExp.literal q2) true) r = true.
Proof.
  intros H r Hr. apply or_regex_literal, H, or_regex_literal, Hr.
Qed.

(** X19.  For plain-text queries the case of the query does not matter: two
    queries equal up to the case of letters find the same records. *)
Theorem search_expenses_case_of_query
    (q1 q2 : string) (req_user : User.t) (db : Db) :
  plain_text q1 -> not_blank q1 -> plain_text q2 -> not_blank q2 ->
  same_ignoring_case q1 q2 ->
  found (search_expenses (Some q1) req_user db)
  = found (search_expenses (Some q2) req_user db).
Proof.
  intros Hp1 Hb1 Hp2 Hb2 Hs.
  rewrite (search_expenses_plain q1 db req_user Hp1 Hb1),
    (search_expenses_plain q2 db req_user Hp2 Hb2).
  cbn [found data_of body json].
  apply filter_ext. intros r. apply eq_true_iff_eq. split.
  - apply or_regex_literal_ext. intros r'.
    apply record_contains_same_query, Hs.
  - apply or_regex_literal_ext. intros r'.
    apply record_contains_same_query. symmetry. exact Hs.
Qed.

Lemma search_expenses_case_of_query_witness :
  (plain_text "rent" /\ not_blank "rent" /\ plain_text "RENT" /\ not_blank "RENT"
   /\ same_ignoring_case "rent" "RENT")
  /\ found (search_expenses (Some "RENT") Sample.ann Sample.db) = [Sample.rent].
Proof.
  split; [repeat split|].
  rewrite <- (search_expenses_case_of_query "rent" "RENT" Sample.ann Sample.db
                eq_refl eq_refl eq_refl eq_refl eq_refl).
  reflexivity.
Defined.

Lemma append_assoc (a b c : string) : (a ++ b) ++ c = a ++ (b ++ c).
Proof. induction a as [|x a IH]; simpl; [reflexivity|now rewrite IH]. Qed.

Lemma map_append f (a b : string) : Str.map f (a ++ b) = Str.map f a ++ Str.map f b.
Proof. induction a as [|x a IH]; simpl; [reflexivity|now rewrite IH]. Qed.

Lemma map_split f (m x y : string) :
  Str.map f m = x ++ y ->
  exists m1 m2, m = m1 ++ m2 /\ Str.map f m1 = x /\ Str.map f m2 = y.
Proof.
  revert m. induction x as [|c x IH]; intros m H; simpl in H.
  - exists EmptyString, m. repeat split. exact H.
  - destruct m as [|d m]; simpl in H; [discriminate|].
    injection H as Hc H. destruct (IH m H) as (m1 & m2 & -> & H1 & H2).
    exists (String d m1), m2. simpl. rewrite Hc, H1. repeat split. exact H2.
Qed.

Lemma existsb_append p (a b : string) :
  Str.existsb p (a ++ b) = Str.existsb p a || Str.existsb p b.
Proof.
  induction a as [|x a IH]; simpl; [reflexivity|]. rewrite IH. apply orb_assoc.
Qed.

Lemma contains_part (q before part after s : string) :
  q = before ++ part ++ after ->
  contains_ignoring_case q s -> contains_ignoring_case part s.
Proof.
  unfold contains_ignoring_case, same_ignoring_case.
  intros -> (b & m & a & -> & Hm).
  rewrite !map_append in Hm.
  destruct (map_split _ _ _ _ Hm) as (m1 & m23 & -> & _ & H23).
  destruct (map_split _ _ _ _ H23) as (m2 & m3 & -> & H2 & _).
  exists (b ++ m1), m2, (m3 ++ a). split; [|exact H2].
  now rewrite !append_assoc.
Qed.

(** X20.  Narrowing: for a plain-text query, every record it finds is also
    found by any non-blank part of it. *)
Theorem search_expenses_narrowing
    (q before part after : string) (req_user : User.t) (db : Db) :
  q = before ++ part ++ after ->
  plain_text q -> not_blank q -> not_blank part ->
  incl (found (search_expenses (Some q) req_user db))
       (found (search_expenses (Some part) req_user db)).
Proof.
  intros Hq Hp Hb Hb'.
  assert (Hp' : plain_text part).
  { unfold plain_text in *. rewrite Hq, !existsb_append in Hp.
    apply orb_false_iff in Hp. destruct Hp as [_ Hp].
    apply orb_false_iff in Hp. tauto. }
  rewrite (search_expenses_plain q db req_user Hp Hb),
    (search_expenses_plain part db req_user Hp' Hb').
  cbn [found data_of body json]. intros r Hr.
  apply filter_In in Hr. destruct Hr as [Hin Hr]. apply filter_In.
  split; [exact Hin|].
  apply or_regex_literal. apply or_regex_literal in Hr.
  unfold record_contains, field_contains in *.
  pose proof (contains_part q before part after) as Hc.
  destruct (Expense.category r), (Expense.description r);
    destruct Hr as [?|[?|?]]; eauto; contradiction.
Qed.

Lemma search_expenses_narrowing_witness :
  ("groceries" = "g" ++ "rocer" ++ "ies"
   /\ plain_text "groceries" /\ not_blank "groceries" /\ not_blank "rocer")
  /\ incl (found (search_expenses (Some "groceries") Sample.ann Sample.db))
          (found (search_expenses (Some "rocer") Sample.ann Sample.db)).
Proof.
  split; [repeat split|].
  exact (search_expenses_narrowing "groceries" "g" "rocer" "ies" Sample.ann Sample.db
           eq_refl eq_refl eq_refl eq_refl).
Defined.

(** ** The email pattern *)









(** ** Register, login and the bearer gate as they compose *)

Lemma findOne_email_app e (l1 l2 : list User.t) :
  findOne_email e (l1 ++ l2)%list
  = match findOne_email e l1 with
    | Some u => Some u
    | None => findOne_email e l2
    end.
Proof.
  unfold findOne_email. induction l1 as [|u l1 IH]; simpl; [reflexivity|].
  destruct (String.eqb (User.email u) e); [reflexivity|exact IH].
Qed.


Lemma findOne_email_Some e l u :
  findOne_email e l = Some u -> In u l /\ User.email u = e.
Proof.
  unfold findOne_email. intros H. apply find_some in H.
  destruct H as [Hin He]. split; [exact Hin|]. now apply String.eqb_eq.
Qed.

Lemma User_findById_unique (l : list User.t) (u : User.t) :
  NoDup (List.map User._id l) -> In u l ->
  User_findById (Some (User._id u)) l = Some u.
Proof.
  unfold User_findById. induction l as [|x l IH]; simpl; [tauto|].
  intros Hn [->|Hin].
  - now rewrite String.eqb_refl.
  - inversion Hn as [|? ? Hx Hl]; subst.
    destruct (String.eqb_spec (User._id x) (User._id u)) as [E|E].
    + exfalso. apply Hx. rewrite E. now apply in_map.
    + now apply IH.
Qed.

Lemma split_no_separator sep s :
  Str.existsb (Ascii.eqb sep) s = false -> Str.split sep s = [s].
Proof.
  induction s as [|c s IH]; simpl; [reflexivity|].
  intros H. apply orb_false_iff in H. destruct H as [Hc Hs].
  rewrite Ascii.eqb_sym, Hc, (IH Hs). reflexivity.
Qed.

(** The token of a header ["Bearer " ++ token] is the text up to the next
    space. *)
Lemma bearer_token token :
  no_space token ->
  nth_error (Str.split " " ("Bearer " ++ token)) 1 = Some token.
Proof.
  intros H. cbn. rewrite (split_no_separator " " token H). reflexivity.
Qed.

Section UserFlows.

Variable bcrypt_hash : string -> string -> string.
Variable bcrypt_compare : string -> string -> bool.
Variable jwt_sign : ObjectId -> string -> string -> string.
Variable jwt_verify : string -> string -> option (option ObjectId).

Lemma register_cases
    (req_body : RegisterBody) (salt : string) (new_id : ObjectId) (db : Db) :
  (exists name email password,
      req_body = mkRegisterBody (Some name) (Some email) (Some password)
      /\ name <> EmptyString /\ email <> EmptyString /\ password <> EmptyString
      /\ EmailRegex.test email = true
      /\ findOne_email email (users db) = None
      /\ register bcrypt_hash req_body salt new_id db
         = (mkResponse 201
              (RegisteredBody "User registered successfully"
                 (User.mk new_id name email (bcrypt_hash salt password))),
            mkDb (expenses db)
              (users db ++ [User.mk new_id name email (bcrypt_hash salt password)])))
  \/ (status (fst (register bcrypt_hash req_body salt new_id db)) = 400
      /\ snd (register bcrypt_hash req_body salt new_id db) = db).
Proof.
  unfold register.
  destruct (Js.not_str (r_name req_body) || Js.not_str (r_email req_body)
            || Js.not_str (r_password req_body)) eqn:E0;
    [right; split; reflexivity|].
  apply orb_false_iff in E0. destruct E0 as [E0 Ep].
  apply orb_false_iff in E0. destruct E0 as [En Ee].
  destruct req_body as [[name|] [email|] [password|]];
    cbn [r_name r_email r_password Js.not_str get] in *; try discriminate.
  apply String.eqb_neq in En, Ee, Ep.
  destruct (EmailRegex.test email) eqn:Et; cbn [negb]; [|right; split; reflexivity].
  destruct (findOne_email email (users db)) eqn:Ef; [right; split; reflexivity|].
  left. exists name, email, password. repeat split; auto.
Qed.


(** X24.  Round trip: after a registration that answers 201, login with the
    same email and password succeeds with a token signed for the new user,
    as soon as the password verifies against its own hash. *)
Theorem register_then_login
    (req_body : RegisterBody) (salt : string) (new_id : ObjectId) (db : Db) :
  status (fst (register bcrypt_hash req_body salt new_id db)) = 201 ->
  bcrypt_compare (get (r_password req_body))
    (bcrypt_hash salt (get (r_password req_body))) = true ->
  login bcrypt_compare jwt_sign
    (mkLoginRequest (r_email req_body) (r_password req_body))
    (snd (register bcrypt_hash req_body salt new_id db))
  = (json (LoginBody "Login successful"
             (jwt_sign new_id (get (r_email req_body)) JWT_SECRET)
             new_id (get (r_name req_body)) (get (r_email req_body))),
     snd (register bcrypt_hash req_body salt new_id db)).
Proof.
  intros Hs Hc.
  destruct (register_cases req_body salt new_id db)
    as [(name & email & password & -> & Hn & He & Hp & Ht & Hf & E)|[E _]];
    [|rewrite E in Hs; discriminate].
  rewrite E. cbn [snd r_email r_password r_name get] in *.
  unfold login. cbn [l_email l_password Js.not_str get users].
  apply String.eqb_neq in He, Hp. rewrite He, Hp, Ht. cbn [orb negb].
  rewrite findOne_email_app, Hf. unfold findOne_email. cbn [find User.email].
  rewrite String.eqb_refl. cbn [User.password User._id User.name User.email].
  rewrite Hc. reflexivity.
Qed.

(** X25.  After a registration that answers 201, a second registration
    with the same email is answered 400, user already exists, whatever its
    name and password, and the store is unchanged. *)
Theorem register_twice_rejected
    (first second : RegisterBody) (salt salt' : string) (id id' : ObjectId) (db : Db) :
  status (fst (register bcrypt_hash first salt id db)) = 201 ->
  r_email second = r_email first ->
  r_name second <> None -> r_name second <> Some EmptyString ->
  r_password second <> None -> r_password second <> Some EmptyString ->
  register bcrypt_hash second salt' id' (snd (register bcrypt_hash first salt id db))
  = (mkResponse 400 (MessageBody "User already exists"),
     snd (register bcrypt_hash first salt id db)).
Proof.
  intros Hs Hemail Hn1 Hn2 Hp1 Hp2.
  destruct (register_cases first salt id db)
    as [(name & email & password & -> & Hn & He & Hp & Ht & Hf & E)|[E _]];
    [|rewrite E in Hs; discriminate].
  rewrite E. cbn [snd r_email] in *.
  destruct second as [[name'|] [email'|] [password'|]];
    cbn [r_name r_email r_password] in *; try congruence.
  injection Hemail as ->.
  unfold register. cbn [r_name r_email r_password Js.not_str get users].
  assert (En : String.eqb name' EmptyString = false).
  { apply String.eqb_neq. congruence. }
  assert (Ep : String.eqb password' EmptyString = false).
  { apply String.eqb_neq. congruence. }
  apply String.eqb_neq in He. rewrite En, He, Ep, Ht. cbn [orb negb].
  rewrite findOne_email_app, Hf. unfold findOne_email. cbn [find User.email].
  rewrite String.eqb_refl. reflexivity.
Qed.

Lemma login_token_only_if_verified_aux
    (req_body : LoginRequest) (db : Db) (token : string) :
  token_of (fst (login bcrypt_compare jwt_sign req_body db)) = Some token ->
  exists user,
    In user (users db)
    /\ l_email req_body = Some (User.email user)
    /\ bcrypt_compare (get (l_password req_body)) (User.password user) = true
    /\ token = jwt_sign (User._id user) (User.email user) JWT_SECRET
    /\ snd (login bcrypt_compare jwt_sign req_body db) = db.
Proof.
  unfold login.
  destruct (Js.not_str (l_email req_body) || Js.not_str (l_password req_body)) eqn:E0;
    [discriminate|].
  destruct (EmailRegex.test (get (l_email req_body))); cbn [negb]; [|discriminate].
  destruct (findOne_email (get (l_email req_body)) (users db)) as [user|] eqn:Ef;
    [|discriminate].
  destruct (bcrypt_compare (get (l_password req_body)) (User.password user)) eqn:Ec;
    cbn [negb]; [|discriminate].
  cbn. intros [= <-]. exists user.
  apply findOne_email_Some in Ef. destruct Ef as [Hin He].
  repeat split; auto.
  destruct (l_email req_body) as [e|]; [|discriminate E0].
  cbn in He. now rewrite He.
Qed.

(** X26.  login issues a token only for a user of the store whose email is
    the one requested and against whose stored hash the password verifies;
    the token is signed for that user's id and email, and the store is
    unchanged. *)
Theorem login_token_only_if_verified
    (req_body : LoginRequest) (db : Db) (token : string) :
  token_of (fst (login bcrypt_compare jwt_sign req_body db)) = Some token ->
  exists user,
    In user (users db)
    /\ l_email req_body = Some (User.email user)
    /\ bcrypt_compare (get (l_password req_body)) (User.password user) = true
    /\ token = jwt_sign (User._id user) (User.email user) JWT_SECRET
    /\ snd (login bcrypt_compare jwt_sign req_body db) = db.
Proof.
  apply login_token_only_if_verified_aux.
Qed.

(** X27.  A request without an authorization header, or with one that does
    not start with the word Bearer and a space, is answered 401, no token
    provided, and the protected handler does not run. *)
Theorem authMiddleware_requires_bearer
    (authorization : option string) (db : Db)
    (handler : User.t -> Db -> Response * Db) :
  match authorization with
  | Some authHeader => Str.startsWith "Bearer " authHeader = false
  | None => True
  end ->
  authMiddleware jwt_verify authorization db
  = inl (mkResponse 401 (MessageBody "Unauthorized: No token provided"))
  /\ protected jwt_verify handler authorization db
     = (mkResponse 401 (MessageBody "Unauthorized: No token provided"), db).
Proof.
  intros H.
  assert (E : authMiddleware jwt_verify authorization db
              = inl (mkResponse 401 (MessageBody "Unauthorized: No token provided"))).
  { unfold authMiddleware. destruct authorization as [h|]; [|reflexivity].
    rewrite H. cbn [negb]. rewrite orb_true_r. reflexivity. }
  split; [exact E|]. unfold protected. rewrite E. reflexivity.
Qed.

(** X28.  The gate either answers 401, and then the protected handler
    does not run and the store is unchanged, or it attaches a user of the
    store whose id is the one a verified bearer token names, and then the
    handler runs for that user. *)
Theorem authMiddleware_outcome
    (authorization : option string) (db : Db)
    (handler : User.t -> Db -> Response * Db) :
  (exists response,
      authMiddleware jwt_verify authorization db = inl response
      /\ status response = 401
      /\ protected jwt_verify handler authorization db = (response, db))
  \/ (exists user authHeader token,
         authMiddleware jwt_verify authorization db = inr user
         /\ In user (users db)
         /\ authorization = Some authHeader
         /\ Str.startsWith "Bearer " authHeader = true
         /\ nth_error (Str.split " " authHeader) 1 = Some token
         /\ jwt_verify token JWT_SECRET = Some (Some (User._id user))
         /\ protected jwt_verify handler authorization db = handler user db).
Proof.
  unfold protected, authMiddleware.
  destruct authorization as [h|]; [|left; eexists; repeat split].
  destruct (String.eqb h EmptyString); cbn [orb]; [left; eexists; repeat split|].
  destruct (Str.startsWith "Bearer " h) eqn:Es; cbn [negb];
    [|left; eexists; repeat split].
  destruct (nth_error (Str.split " " h) 1) as [token|] eqn:Et;
    [|left; eexists; repeat split].
  destruct (jwt_verify token JWT_SECRET) as [[uid|]|] eqn:Ev;
    [|left; eexists; repeat split..].
  cbn [User_findById].
  destruct (find (fun u => String.eqb (User._id u) uid) (users db)) as [user|] eqn:Ef;
    [|left; eexists; repeat split].
  right. exists user, h, token. apply find_some in Ef. destruct Ef as [Hin Hid].
  apply String.eqb_eq in Hid. rewrite Hid. repeat split; auto.
Qed.

(** X29.  Round trip: with distinct user ids, the token a successful login
    issues, sent in a Bearer header, passes the gate and resolves to a user
    of the store with the email that logged in. *)
Theorem login_then_authMiddleware
    (req_body : LoginRequest) (db : Db) (token : string) :
  unique_user_ids db ->
  (forall user,
      In user (users db) ->
      jwt_verify (jwt_sign (User._id user) (User.email user) JWT_SECRET) JWT_SECRET
      = Some (Some (User._id user))) ->
  token_of (fst (login bcrypt_compare jwt_sign req_body db)) = Some token ->
  no_space token ->
  exists user,
    authMiddleware jwt_verify (Some ("Bearer " ++ token)) db = inr user
    /\ In user (users db)
    /\ l_email req_body = Some (User.email user).
Proof.
  intros Hn Hv Ht Hs.
  destruct (login_token_only_if_verified_aux req_body db token Ht)
    as (user & Hin & He & _ & -> & _).
  exists user. split; [|split; assumption].
  unfold authMiddleware.
  change (String.eqb ("Bearer " ++ jwt_sign (User._id user) (User.email user) JWT_SECRET)
            EmptyString) with false.
  change (Str.startsWith "Bearer "
            ("Bearer " ++ jwt_sign (User._id user) (User.email user) JWT_SECRET))
    with true.
  cbn [orb negb]. rewrite (bearer_token _ Hs), (Hv user Hin).
  rewrite (User_findById_unique _ _ Hn Hin). reflexivity.
Qed.

End UserFlows.


Lemma register_then_login_witness :
  (status (fst (register Sample.hash
                  (mkRegisterBody (Some "Ann") (Some "ann@example.com") (Some "secret"))
                  "salt" "u1" (mkDb [] []))) = 201
   /\ Sample.compare "secret" (Sample.hash "salt" "secret") = true)
  /\ fst (login Sample.compare Sample.sign
            (mkLoginRequest (Some "ann@example.com") (Some "secret")) Sample.registry)
     = json (LoginBody "Login successful" "u1.ann@example.com.manishexpensetracker"
               "u1" "Ann" "ann@example.com").
Proof.
  split; [split; reflexivity|].
  pose proof (register_then_login Sample.hash Sample.compare Sample.sign
                (mkRegisterBody (Some "Ann") (Some "ann@example.com") (Some "secret"))
                "salt" "u1" (mkDb [] []) eq_refl eq_refl) as E.
  apply (f_equal fst) in E. exact E.
Defined.

Lemma register_twice_rejected_witness :
  status (fst (register Sample.hash
                 (mkRegisterBody (Some "Ann") (Some "ann@example.com") (Some "secret"))
                 "salt" "u1" (mkDb [] []))) = 201
  /\ register Sample.hash
       (mkRegisterBody (Some "Anna") (Some "ann@example.com") (Some "other"))
       "pepper" "u7" Sample.registry
     = (mkResponse 400 (MessageBody "User already exists"), Sample.registry).
Proof.
  split; [reflexivity|].
  apply (register_twice_rejected Sample.hash
           (mkRegisterBody (Some "Ann") (Some "ann@example.com") (Some "secret"))
           (mkRegisterBody (Some "Anna") (Some "ann@example.com") (Some "other"))
           "salt" "pepper" "u1" "u7" (mkDb [] []));
    try reflexivity; discriminate.
Defined.

Lemma login_token_only_if_verified_witness :
  token_of (fst (login Sample.compare Sample.sign
                   (mkLoginRequest (Some "ann@example.com") (Some "secret"))
                   Sample.registry))
  = Some "u1.ann@example.com.manishexpensetracker"
  /\ exists user,
       In user (users Sample.registry)
       /\ Sample.compare "secret" (User.password user) = true.
Proof.
  assert (H : token_of (fst (login Sample.compare Sample.sign
                               (mkLoginRequest (Some "ann@example.com") (Some "secret"))
                               Sample.registry))
              = Some "u1.ann@example.com.manishexpensetracker") by reflexivity.
  split; [exact H|].
  destruct (login_token_only_if_verified Sample.compare Sample.sign _ _ _ H)
    as (user & Hin & _ & Hc & _).
  exists user. split; assumption.
Defined.

Lemma authMiddleware_requires_bearer_witness :
  Str.startsWith "Bearer " "Token u1.ann@example.com.manishexpensetracker" = false
  /\ protected Sample.verify all_expenses
       (Some "Token u1.ann@example.com.manishexpensetracker") Sample.db
     = (mkResponse 401 (MessageBody "Unauthorized: No token provided"), Sample.db).
Proof.
  split; [reflexivity|].
  destruct (authMiddleware_requires_bearer Sample.verify
              (Some "Token u1.ann@example.com.manishexpensetracker") Sample.db
              all_expenses eq_refl) as [_ E].
  exact E.
Defined.

Lemma login_then_authMiddleware_witness :
  (unique_user_ids Sample.registry
   /\ no_space "u1.ann@example.com.manishexpensetracker")
  /\ exists user,
       authMiddleware Sample.verify
         (Some "Bearer u1.ann@example.com.manishexpensetracker") Sample.registry
       = inr user
       /\ In user (users Sample.registry).
Proof.
  assert (Hn : unique_user_ids Sample.registry).
  { unfold unique_user_ids. cbn. constructor; [intros []|constructor]. }
  assert (Hs : no_space "u1.ann@example.com.manishexpensetracker") by reflexivity.
  split; [split; assumption|].
  assert (Hv : forall user, In user (users Sample.registry) ->
                 Sample.verify (Sample.sign (User._id user) (User.email user) JWT_SECRET)
                   JWT_SECRET = Some (Some (User._id user))).
  { intros user [<-|[]]. reflexivity. }
  destruct (login_then_authMiddleware Sample.compare Sample.sign Sample.verify
              (mkLoginRequest (Some "ann@example.com") (Some "secret"))
              Sample.registry "u1.ann@example.com.manishexpensetracker"
              Hn Hv eq_refl Hs) as (user & Ha & Hin & _).
  exists user. split; assumption.
Defined.
